(** * GeoPy: the [Vector] value type and its 2-D [Point] specialisation

    A shallow embedding of [core/vector.py] and [two_d/point.py].

    - Python floats and numpy [float64] cells are IEEE-754 binary64 numbers,
      modelled by Rocq's primitive [float].
    - [self.coordinates] is a mutable numpy buffer: instances hold a
      reference into a store of buffers, and every method is a computation
      over that store which either returns a value or raises.
    - [self.__class__(...)] and [item.vector()] are dynamically dispatched;
      the class of the receiver is carried by the instance. *)

From Stdlib Require Import ZArith List Floats String Lia Bool.
From stdpp Require Import base list.

(** ** Results and exceptions *)

(** The built-in exception classes the code (or numpy on its behalf) raises.
    The specification's taxonomy names them by role: [ValueError] is its
    DimensionError / DimensionMismatchError, [TypeError] its
    TypeMismatchError / UnsupportedOperandError (and the unsupported-operation
    error numpy reports for an operator its dtype lacks), and
    [NotImplementedError] its UnsupportedOperationError for structural
    mutation. *)
Inductive exception :=
  | TypeError
  | ValueError
  | AttributeError
  | NotImplementedError
  | OverflowError
  | IndexError.

#[global] Instance exception_eq_dec : EqDecision exception.
Proof. solve_decision. Defined.

Inductive result (A : Type) : Type :=
  | Ok (a : A)
  | Raise (e : exception).
Arguments Ok {A} a.
Arguments Raise {A} e.

Definition is_ok {A} (r : result A) : bool :=
  match r with Ok _ => true | Raise _ => false end.

(** ** Numbers *)

(** [Scalar = Union[float, int]]. *)
Inductive Scalar :=
  | PyInt (z : Z)
  | PyFloat (f : float).

(** The binary64 number nearest to an integer (ties to even); infinite when
    the integer is beyond the largest finite double. *)
Definition float_of_Z (z : Z) : float :=
  SF2Prim (binary_normalize prec emax z 0 false).

(** [float(z)] for a Python [int]: "int too large to convert to float". *)
Definition float_of_int (z : Z) : result float :=
  let f := float_of_Z z in
  if is_infinity f then Raise OverflowError else Ok f.

Definition float_of_Scalar (s : Scalar) : result float :=
  match s with
  | PyInt z => float_of_int z
  | PyFloat f => Ok f
  end.

Fixpoint mapM {A B} (f : A -> result B) (l : list A) : result (list B) :=
  match l with
  | [] => Ok []
  | a :: l' =>
      match f a with
      | Raise e => Raise e
      | Ok b =>
          match mapM f l' with
          | Raise e => Raise e
          | Ok bs => Ok (b :: bs)
          end
      end
  end.

(** ** numpy arrays (one-dimensional) *)

(** A numpy array as a caller hands it in, or as an operator returns it
    before it is wrapped: the element type is part of the value. *)
Inductive ndarray :=
  | Float64 (xs : list float)
  | Int64 (xs : list Z).

(** [Vector_raw = Union[Tuple[Scalar, ...], np.ndarray]]; [to_class] also
    admits lists. *)
Inductive Vector_raw :=
  | PyTuple (xs : list Scalar)
  | PyList (xs : list Scalar)
  | NdArray (a : ndarray).

Definition len (r : Vector_raw) : nat :=
  match r with
  | PyTuple xs | PyList xs => length xs
  | NdArray (Float64 xs) => length xs
  | NdArray (Int64 xs) => length xs
  end.

(** [np.array(r, dtype=float)]: always a fresh float64 buffer. *)
Definition np_array (r : Vector_raw) : result (list float) :=
  match r with
  | PyTuple xs | PyList xs => mapM float_of_Scalar xs
  | NdArray (Float64 xs) => Ok xs
  | NdArray (Int64 xs) => Ok (map float_of_Z xs)
  end.

(** numpy broadcasting of two one-dimensional operands: equal lengths pair
    up, a length-1 operand is stretched, anything else "could not be
    broadcast together". *)
Definition broadcast {A} (f : float -> float -> A) (xs ys : list float)
  : result (list A) :=
  if decide (length xs = length ys) then Ok (zip_with f xs ys)
  else match xs, ys with
       | [x], _ => Ok (map (f x) ys)
       | _, [y] => Ok (map (fun x => f x y) xs)
       | _, _ => Raise ValueError
       end.

(** [ndarray.__invert__]: defined for integer arrays, "ufunc 'invert' not
    supported for the input types" on float arrays. *)
Definition supports_invert (a : ndarray) : bool :=
  match a with Float64 _ => false | Int64 _ => true end.

Definition ndarray_invert (a : ndarray) : result ndarray :=
  match a with
  | Float64 _ => Raise TypeError
  | Int64 xs => Ok (Int64 (map Z.lnot xs))
  end.

(** ** The store and the computation monad *)

Abbreviation loc := nat (only parsing).

(** The store of float64 coordinate buffers, addressed by allocation order. *)
Abbreviation heap := (list (list float)) (only parsing).

Definition M (A : Type) : Type := heap -> result A * heap.

#[global] Instance M_ret : MRet M := fun A a h => (Ok a, h).

#[global] Instance M_bind : MBind M := fun A B k m h =>
  match m h with
  | (Ok a, h') => k a h'
  | (Raise e, h') => (Raise e, h')
  end.

Definition raise {A} (e : exception) : M A := fun h => (Raise e, h).

Definition lift {A} (r : result A) : M A := fun h => (r, h).

(** [try: body  except e: handler] *)
Definition try_except {A} (body : M A) (e : exception) (handler : M A) : M A :=
  fun h =>
    match body h with
    | (Ok a, h') => (Ok a, h')
    | (Raise e', h') =>
        if decide (e' = e) then handler h' else (Raise e', h')
    end.

Definition alloc (xs : list float) : M loc :=
  fun h => (Ok (length h), h ++ [xs]).

Definition load (l : loc) : M (list float) :=
  fun h => (Ok (default [] (h !! l)), h).

Definition store (l : loc) (xs : list float) : M unit :=
  fun h => (Ok tt, <[l := xs]> h).

(** ** Objects *)

Inductive pyclass := ClsVector | ClsPoint.

#[global] Instance pyclass_eq_dec : EqDecision pyclass.
Proof. solve_decision. Defined.

(** [issubclass]: [class Point(Vector)]. *)
Definition issubclass (c c' : pyclass) : bool :=
  match c, c' with
  | ClsVector, ClsVector | ClsPoint, ClsPoint | ClsPoint, ClsVector => true
  | ClsVector, ClsPoint => false
  end.

Record instance := Instance {
  __class__ : pyclass;
  coordinates : loc;
  name : option string
}.

(** The Python values an operand can be. [Foreign] is an object of a class
    from outside the repository: [Some r] when it has a [vector()] method
    (which returns or raises [r]), [None] when it has none. It offers
    numpy nothing to compute with. *)
#[warnings="-register-all"] Inductive value :=
  | VNone
  | VBool (b : bool)
  | VInt (z : Z)
  | VFloat (f : float)
  | VStr (s : string)
  | VDict
  | VRaw (r : Vector_raw)
  | VInstance (o : instance)
  | Foreign (vector : option (result value)).

Definition isinstance (item : value) (cls : pyclass) : bool :=
  match item with
  | VInstance o => issubclass (__class__ o) cls
  | _ => false
  end.

(** ** Construction *)

Module Vector.
(** [Vector.__init__], run on a new object of class [cls]. *)
Definition __init__ (cls : pyclass) (coordinates : Vector_raw)
    (name : option string) : M instance :=
  xs ← lift (np_array coordinates);
  l ← alloc xs;
  mret (Instance cls l name).
End Vector.

Module Point.
(** [Point.__init__], run on a new object of class [cls]. *)
Definition __init__ (cls : pyclass) (x_y : Vector_raw)
    (name : option string) : M instance :=
  if decide (len x_y = 2%nat) then Vector.__init__ cls x_y name
  else raise ValueError.
End Point.

(** [cls(coordinates, name=name)]: the constructor call, dispatched on the
    class. *)
Definition new (cls : pyclass) (coordinates : Vector_raw)
    (name : option string) : M instance :=
  match cls with
  | ClsVector => Vector.__init__ cls coordinates name
  | ClsPoint => Point.__init__ cls coordinates name
  end.

(** The [d] property: [len(self.coordinates)]. *)
Definition d (self : instance) : M nat :=
  xs ← load (coordinates self);
  mret (length xs).

(** [Point.vector]: [Vector(self.coordinates)]. *)
Definition vector (self : instance) : M value :=
  xs ← load (coordinates self);
  o ← new ClsVector (NdArray (Float64 xs)) None;
  mret (VInstance o).

(** [item.vector()]: attribute lookup, then the call. Only [Point] defines
    the method; [Vector] itself does not. *)
Definition call_vector (item : value) : M value :=
  match item with
  | VInstance o =>
      match __class__ o with
      | ClsPoint => vector o
      | ClsVector => raise AttributeError
      end
  | Foreign (Some r) => lift r
  | _ => raise AttributeError
  end.

(** ** Coercion and validation *)

Definition to_class (cls : pyclass) (item : value) (no_scalar : bool)
  : M value :=
  match item with
  | VRaw r => o ← new cls r None; mret (VInstance o)
  | VStr _ | VDict => raise TypeError
  | _ =>
      try_except (call_vector item) AttributeError
        (if no_scalar then raise TypeError else mret item)
  end.

Definition check_class (cls : pyclass) (item : value) : M unit :=
  if isinstance item cls then mret tt else raise TypeError.

(** ** Kernels outside IEEE-754 *)

(** The float64 kernels that IEEE-754 does not fix: the C library's [pow],
    which numpy calls for [**] on a float64 scalar; numpy's floored quotient,
    remainder and elementwise power; and the dot product (whose summation
    order belongs to the BLAS in use). They are total on float64. *)
Class Numpy := {
  libm_pow : float -> float -> float;
  floor_divide : float -> float -> float;
  remainder : float -> float -> float;
  power : float -> float -> float;
  dot : list float -> list float -> float
}.

(** What every C library's [pow] keeps of squaring where it rounds on its
    own: the result is not below zero, and the sign of the base does not
    matter. *)
Class LibmLaws `{Numpy} : Prop := {
  pow_2_not_negative :
    forall t, PrimFloat.ltb (libm_pow t 2) 0%float = false;
  pow_2_even :
    forall t, libm_pow (PrimFloat.opp t) 2 = libm_pow t 2
}.

(** Whether the square of [t] is a float64: the rounded product of a finite
    [t] with itself has the value [m * m * 2 ^ (2 * e)] of the exact one.
    The squares of zeros, infinities and NaN are fixed by IEEE-754. *)
Definition square_is_exact (t : float) : bool :=
  match Prim2SF t, Prim2SF (PrimFloat.mul t t) with
  | S754_finite _ m e, S754_finite _ m' e' =>
      let k := Z.min e' (2 * e) in
      (Z.shiftl (Zpos m') (e' - k) =? Z.shiftl (Zpos (m * m)) (2 * e - k))%Z
  | S754_finite _ _ _, _ => false
  | _, _ => true
  end.

(** [t ** 2] on a numpy float64 scalar: [pow(t, 2.0)] of the C library. Its
    error is below one unit in the last place, so a square that is a float64
    is returned as it is; any other square is rounded by the library, not
    always to the float64 that the product [t * t] rounds to. *)
Definition float64_square `{Numpy} (t : float) : float :=
  if square_is_exact t then PrimFloat.mul t t else libm_pow t 2.

(** ** Distance *)

(** [(x2 - x)**2] on two float64 cells. *)
Definition sq_diff `{Numpy} (x x2 : float) : float :=
  float64_square (PrimFloat.sub x2 x).

(** The builtin [sum]: left to right, starting from [0]. *)
Definition sum (xs : list float) : float :=
  fold_left PrimFloat.add xs 0%float.

(** [math.sqrt]: "math domain error" below zero. *)
Definition math_sqrt (x : float) : result float :=
  if PrimFloat.ltb x 0%float then Raise ValueError
  else Ok (PrimFloat.sqrt x).

(** [item.d] and [item.coordinates] on an arbitrary value. *)
Definition get_d (item : value) : M nat :=
  match item with
  | VInstance o => d o
  | _ => raise AttributeError
  end.

Definition get_coordinates (item : value) : M (list float) :=
  match item with
  | VInstance o => load (coordinates o)
  | _ => raise AttributeError
  end.

Definition distance `{Numpy} (self : instance) (origin : value) : M float :=
  origin ← match origin with
           | VNone =>
               n ← d self;
               o ← new (__class__ self) (PyList (replicate n (PyInt 0))) None;
               mret (VInstance o)
           | _ => to_class (__class__ self) origin false
           end;
  od ← get_d origin;
  sd ← d self;
  if decide (od ≠ sd) then raise ValueError
  else
    xs ← load (coordinates self);
    ys ← get_coordinates origin;
    lift (math_sqrt (sum (zip_with sq_diff xs ys))).

(** [self.copy(order)]; the memory order is immaterial in one dimension. *)
Inductive order := C | F | A | K.

Definition ndarray_copy (xs : list float) (_ : order) : ndarray := Float64 xs.

Definition copy (self : instance) (order : order) : M value :=
  xs ← load (coordinates self);
  o ← new (__class__ self) (NdArray (ndarray_copy xs order)) None;
  mret (VInstance o).

(** ** Indexing (integer keys) *)

(** numpy's integer index into [n] cells: negative keys count from the end. *)
Definition normalize_index (n : nat) (i : Z) : result nat :=
  if (0 <=? i)%Z && (i <? Z.of_nat n)%Z then Ok (Z.to_nat i)
  else if (- Z.of_nat n <=? i)%Z && (i <? 0)%Z then Ok (Z.to_nat (i + Z.of_nat n))
  else Raise IndexError.

Definition __getitem__ (self : instance) (item : Z) : M value :=
  xs ← load (coordinates self);
  i ← lift (normalize_index (length xs) item);
  mret (VFloat (default nan (xs !! i))).

Definition __setitem__ (self : instance) (key : Z) (value : Scalar) : M unit :=
  xs ← load (coordinates self);
  i ← lift (normalize_index (length xs) key);
  y ← lift (float_of_Scalar value);
  store (coordinates self) (<[i := y]> xs).

Definition __delitem__ (self : instance) (key : value) : M unit :=
  raise NotImplementedError.

(** ** Comparisons *)

(** [other.distance()] on an arbitrary value. *)
Definition call_distance `{Numpy} (item : value) : M float :=
  match item with
  | VInstance o => distance o VNone
  | _ => raise AttributeError
  end.

(** [(xs == ys).all()] on two buffers. *)
Definition all_eq (xs ys : list float) : result bool :=
  match broadcast PrimFloat.eqb xs ys with
  | Ok bs => Ok (forallb id bs)
  | Raise e => Raise e
  end.

Definition __eq__ (self : instance) (other : value) : M value :=
  other ← to_class (__class__ self) other false;
  _ ← check_class (__class__ self) other;
  xs ← load (coordinates self);
  ys ← get_coordinates other;
  b ← lift (all_eq xs ys);
  mret (VBool b).

(** The four ordering methods share one body up to the float comparison. *)
Definition ordering `{Numpy} (cmp : float -> float -> bool) (self : instance)
    (other : value) : M value :=
  other ← to_class (__class__ self) other false;
  _ ← check_class (__class__ self) other;
  a ← distance self VNone;
  b ← call_distance other;
  mret (VBool (cmp a b)).

Definition float_gt (a b : float) : bool := PrimFloat.ltb b a.
Definition float_lt (a b : float) : bool := PrimFloat.ltb a b.
Definition float_le (a b : float) : bool := PrimFloat.leb a b.
Definition float_ge (a b : float) : bool := PrimFloat.leb b a.

Definition __gt__ `{Numpy} := ordering float_gt.
Definition __lt__ `{Numpy} := ordering float_lt.
Definition __le__ `{Numpy} := ordering float_le.
Definition __ge__ `{Numpy} := ordering float_ge.

(** ** Unary operators *)

Definition unary (f : float -> float) (self : instance) : M value :=
  xs ← load (coordinates self);
  o ← new (__class__ self) (NdArray (Float64 (map f xs))) None;
  mret (VInstance o).

Definition __pos__ := unary (fun x => x).
Definition __neg__ := unary PrimFloat.opp.
Definition __abs__ := unary PrimFloat.abs.

(** [self.coordinates] as numpy sees it: a float64 array. *)
Definition get_array (self : instance) : M ndarray :=
  xs ← load (coordinates self);
  mret (Float64 xs).

(** [cls(a.__invert__())] for an array [a]. *)
Definition wrap_invert (cls : pyclass) (a : ndarray) : M value :=
  r ← lift (ndarray_invert a);
  o ← new cls (NdArray r) None;
  mret (VInstance o).

Definition __invert__ (self : instance) : M value :=
  a ← get_array self;
  wrap_invert (__class__ self) a.

(** ** Binary arithmetic *)

(** What numpy receives as right operand: a float64 buffer, or some other
    Python value. *)
Inductive np_operand :=
  | AsArray (ys : list float)
  | AsValue (v : value).

(** [other.coordinates if isinstance(other, self.__class__) else other] *)
Definition coordinates_if_instance (cls : pyclass) (other : value)
  : M np_operand :=
  if isinstance other cls then
    ys ← get_coordinates other; mret (AsArray ys)
  else mret (AsValue other).

(** An elementwise numpy operator applied to a float64 buffer: buffers
    broadcast, a raw sequence is converted by numpy itself and then
    broadcasts, Python numbers are stretched over the buffer, anything else
    is an unsupported operand. Division by zero does not raise: the cell gets
    whatever the IEEE operation yields. *)
Definition ufunc (f : float -> float -> float) (xs : list float)
    (other : np_operand) : result (list float) :=
  match other with
  | AsArray ys => broadcast f xs ys
  | AsValue (VInt z) =>
      match float_of_int z with
      | Ok y => Ok (map (fun x => f x y) xs)
      | Raise e => Raise e
      end
  | AsValue (VFloat y) => Ok (map (fun x => f x y) xs)
  | AsValue (VBool b) =>
      Ok (map (fun x => f x (if b then 1%float else 0%float)) xs)
  | AsValue (VRaw r) =>
      match np_array r with
      | Ok ys => broadcast f xs ys
      | Raise e => Raise e
      end
  | AsValue _ => Raise TypeError
  end.

(** The shared body of [__add__], [__sub__], ... *)
Definition arithmetic (f : float -> float -> float) (self : instance)
    (other : value) : M value :=
  other ← to_class (__class__ self) other false;
  other ← coordinates_if_instance (__class__ self) other;
  xs ← load (coordinates self);
  r ← lift (ufunc f xs other);
  o ← new (__class__ self) (NdArray (Float64 r)) None;
  mret (VInstance o).

Definition __add__ := arithmetic PrimFloat.add.
Definition __sub__ := arithmetic PrimFloat.sub.
Definition __mul__ := arithmetic PrimFloat.mul.
Definition __truediv__ := arithmetic PrimFloat.div.
Definition __floordiv__ `{Numpy} := arithmetic floor_divide.
Definition __mod__ `{Numpy} := arithmetic remainder.

(** [ndarray.__pow__] declines a modulus; the [NotImplemented] it returns is
    then rejected by the constructor. *)
Definition __pow__ `{Numpy} (self : instance) (power_ modulo : value)
  : M value :=
  match modulo with
  | VNone => arithmetic power self power_
  | _ =>
      other ← to_class (__class__ self) power_ false;
      _ ← coordinates_if_instance (__class__ self) other;
      raise TypeError
  end.

(** [xs.__matmul__(other)]: the dot product of two buffers of one length
    (a raw sequence is converted by numpy first); nothing is stretched, and
    an operand without a dimension is turned down once numpy has converted
    it. *)
Definition dot_product `{Numpy} (xs ys : list float) : result float :=
  if decide (length xs = length ys) then Ok (dot xs ys)
  else Raise ValueError.

Definition matmul `{Numpy} (xs : list float) (other : np_operand)
  : result float :=
  match other with
  | AsArray ys => dot_product xs ys
  | AsValue (VRaw r) =>
      match np_array r with
      | Ok ys => dot_product xs ys
      | Raise e => Raise e
      end
  | AsValue (VInt z) =>
      match float_of_int z with
      | Ok _ => Raise ValueError
      | Raise e => Raise e
      end
  | AsValue _ => Raise ValueError
  end.

Definition __matmul__ `{Numpy} (self : instance) (other : value) : M value :=
  other ← to_class (__class__ self) other false;
  other ← coordinates_if_instance (__class__ self) other;
  xs ← load (coordinates self);
  r ← lift (matmul xs other);
  mret (VFloat r).

(** ** The 2-D point's accessors *)

Definition x (self : instance) : M value := __getitem__ self 0.
Definition y (self : instance) : M value := __getitem__ self 1.

(** [Point.flip_x] and [Point.flip_y]: [Point((self.x, -self.y))] and
    [Point((-self.x, self.y))]. *)
Definition cell (xs : list float) (i : Z) : M float :=
  i ← lift (normalize_index (length xs) i);
  mret (default nan (xs !! i)).

Definition flip_x (self : instance) : M value :=
  xs ← load (coordinates self);
  a ← cell xs 0;
  b ← cell xs 1;
  o ← new ClsPoint (PyTuple [PyFloat a; PyFloat (PrimFloat.opp b)]) None;
  mret (VInstance o).

Definition flip_y (self : instance) : M value :=
  xs ← load (coordinates self);
  a ← cell xs 0;
  b ← cell xs 1;
  o ← new ClsPoint (PyTuple [PyFloat (PrimFloat.opp a); PyFloat b]) None;
  mret (VInstance o).

(** ** Well-formed instances *)

(** The buffer an instance's [coordinates] attribute refers to. *)
Definition buffer (h : heap) (o : instance) : list float :=
  default [] (h !! coordinates o).

(** An instance the constructors can have produced in store [h]: its buffer
    is allocated, and a [Point] has exactly two cells. *)
Definition wf (h : heap) (o : instance) : Prop :=
  (coordinates o < length h)%nat /\
  (__class__ o = ClsPoint -> length (buffer h o) = 2%nat).

(** No cell of the buffer is NaN. *)
Definition nan_free (xs : list float) : bool :=
  forallb (fun x => negb (is_nan x)) xs.


(** The sign test behind [x < 0] on the IEEE level: NaN, both zeros and
    every number with a clear sign bit are not below zero. *)
Definition SFnonneg (x : spec_float) : bool :=
  match x with
  | S754_nan | S754_zero _ => true
  | S754_infinity s | S754_finite s _ _ => negb s
  end.

(** What [distance] computes from the zero origin on cells [xs]. *)
Definition magnitude `{Numpy} (xs : list float) : result float :=
  math_sqrt (sum (map (fun x => float64_square (PrimFloat.sub 0%float x)) xs)).

(** ** Operators as the interpreter dispatches them *)

Inductive operator :=
  | OpAdd | OpSub | OpMul | OpTrueDiv | OpFloorDiv | OpMod | OpPow
  | OpMatMul
  | OpEq | OpLt | OpGt | OpLe | OpGe.

(** The method of [self] that implements an operator. *)
Definition method `{Numpy} (op : operator) (self : instance) (other : value)
  : M value :=
  match op with
  | OpAdd => __add__ self other
  | OpSub => __sub__ self other
  | OpMul => __mul__ self other
  | OpTrueDiv => __truediv__ self other
  | OpFloorDiv => __floordiv__ self other
  | OpMod => __mod__ self other
  | OpPow => __pow__ self other VNone
  | OpMatMul => __matmul__ self other
  | OpEq => __eq__ self other
  | OpLt => __lt__ self other
  | OpGt => __gt__ self other
  | OpLe => __le__ self other
  | OpGe => __ge__ self other
  end.

(** The operators that compare. *)
Definition is_comparison (op : operator) : bool :=
  match op with
  | OpEq | OpLt | OpGt | OpLe | OpGe => true
  | _ => false
  end.

(** The comparison with the operands swapped. *)
Definition reflected (op : operator) : operator :=
  match op with
  | OpLt => OpGt
  | OpGt => OpLt
  | OpLe => OpGe
  | OpGe => OpLe
  | _ => op
  end.

Definition proper_subclass (c c' : pyclass) : bool :=
  issubclass c c' && negb (bool_decide (c = c')).

(** [self OP other]. An arithmetic operator calls the method of the left
    operand: neither class defines a reflected one. A comparison whose right
    operand is an instance of a proper subclass of the left operand's class
    calls the reflected method of the right operand first; no method here
    returns [NotImplemented], so what that call returns or raises stands. *)
Definition binary `{Numpy} (op : operator) (self : instance) (other : value)
  : M value :=
  match other with
  | VInstance o =>
      if is_comparison op && proper_subclass (__class__ o) (__class__ self)
      then method (reflected op) o (VInstance self)
      else method op self other
  | _ => method op self other
  end.

(** The seven elementwise arithmetic operators and their numpy kernels. *)
Definition kernel `{Numpy} (op : operator)
  : option (float -> float -> float) :=
  match op with
  | OpAdd => Some PrimFloat.add
  | OpSub => Some PrimFloat.sub
  | OpMul => Some PrimFloat.mul
  | OpTrueDiv => Some PrimFloat.div
  | OpFloorDiv => Some floor_divide
  | OpMod => Some remainder
  | OpPow => Some power
  | _ => None
  end.

(** ** Operand shapes *)

Definition is_raw (item : value) : bool :=
  match item with VRaw _ => true | _ => false end.

Definition is_str_or_dict (item : value) : bool :=
  match item with VStr _ | VDict => true | _ => false end.

(** Whether [item.vector] resolves to a method: [Point] defines it, [Vector]
    does not. *)
Definition provides_vector (item : value) : bool :=
  match item with
  | VInstance o =>
      match __class__ o with ClsPoint => true | ClsVector => false end
  | Foreign (Some _) => true
  | _ => false
  end.

(** What a valid right operand contributes to an elementwise operator of a
    receiver of class [cls]: the cells of a raw sequence the constructor of
    [cls] accepts, the buffer of an instance, or one number stretched over
    the receiver. *)
Inductive cells :=
  | Cells (ys : list float)
  | Stretch (y : float).

Definition operand_cells (h : heap) (cls : pyclass) (other : value)
  : option cells :=
  match other with
  | VRaw r =>
      match np_array r with
      | Ok ys =>
          match cls with
          | ClsVector => Some (Cells ys)
          | ClsPoint => if decide (len r = 2%nat) then Some (Cells ys) else None
          end
      | Raise _ => None
      end
  | VInt z =>
      match float_of_int z with Ok y => Some (Stretch y) | Raise _ => None end
  | VFloat y => Some (Stretch y)
  | VBool b => Some (Stretch (if b then 1%float else 0%float))
  | VInstance o =>
      match cls with
      | ClsVector =>
          if decide (coordinates o < length h)%nat
          then Some (Cells (buffer h o)) else None
      | ClsPoint => None
      end
  | _ => None
  end.

(** The cells a right operand contributes to a comparison that answers: a
    raw sequence the receiver's class accepts, or, between two base vectors,
    the operand's buffer. *)
Definition comparison_cells (h : heap) (self : instance) (other : value)
  : option (list float) :=
  match other with
  | VRaw _ =>
      match operand_cells h (__class__ self) other with
      | Some (Cells ys) => Some ys
      | _ => None
      end
  | VInstance o =>
      match __class__ self, __class__ o with
      | ClsVector, ClsVector =>
          if decide (coordinates o < length h)%nat
          then Some (buffer h o) else None
      | _, _ => None
      end
  | _ => None
  end.

Definition elementwise (f : float -> float -> float) (xs : list float)
    (c : cells) : result (list float) :=
  match c with
  | Cells ys => broadcast f xs ys
  | Stretch y => Ok (map (fun x => f x y) xs)
  end.

(** A Python number that is zero ([0], [0.0], [-0.0], [False]), with the
    float64 cell numpy stretches over the receiver. *)
Definition zero_scalar (v : value) : option float :=
  match v with
  | VInt 0 => Some 0%float
  | VFloat y => if is_zero y then Some y else None
  | VBool false => Some 0%float
  | _ => None
  end.

(** What a caller sees of a result: the class and the cells of a returned
    instance, or the value itself. *)
Inductive observation :=
  | IsInstance (cls : pyclass) (cells : list float)
  | IsValue (v : value).

Definition observe (r : value) : M observation :=
  match r with
  | VInstance o =>
      xs ← load (coordinates o); mret (IsInstance (__class__ o) xs)
  | _ => mret (IsValue r)
  end.

(** ** Kernels for worked examples *)

(** Kernels to run the worked examples with. [pow] is called at exponent 2
    only, where this one rounds the square correctly; [dot] is the textbook
    sum of products; the three array kernels stand in for numpy's and are
    reached by no example. *)
Definition example_kernels : Numpy := {|
  libm_pow := fun t _ => PrimFloat.mul t t;
  floor_divide := PrimFloat.div;
  remainder := PrimFloat.sub;
  power := PrimFloat.mul;
  dot := fun xs ys =>
    fold_left PrimFloat.add (zip_with PrimFloat.mul xs ys) 0%float
|}.

(** ** Further methods and notions *)

(** [Point.from_vector]: [Point(vector.coordinates)]. *)
Definition from_vector (v : value) : M value :=
  xs ← get_coordinates v;
  o ← new ClsPoint (NdArray (Float64 xs)) None;
  mret (VInstance o).

(** A computation that only allocates: whatever it returns or raises, the
    final store is the initial one followed by new buffers, so no buffer
    that existed before has changed. *)
Definition grows {A} (m : M A) : Prop :=
  forall h r h', m h = (r, h') -> exists t, h' = h ++ t.

(** Every cell is a finite number (neither NaN nor an infinity). *)
Definition finite_cells (xs : list float) : bool := forallb is_finite xs.

(** Operands that are not vector-like: coercion passes them through. *)
Definition is_plain (item : value) : bool :=
  match item with
  | VNone | VBool _ | VInt _ | VFloat _ => true
  | _ => false
  end.

(** [r.m()] on a value a method returned: attribute lookup fails on
    anything that is not an instance. *)
Definition call (m : instance -> M value) (r : value) : M value :=
  match r with
  | VInstance o => m o
  | _ => raise AttributeError
  end.

(** A value that is an unnamed, well-formed instance of class [cls] in
    store [h]. *)
Definition fresh_instance (cls : pyclass) (h : heap) (v : value) : Prop :=
  exists o, v = VInstance o /\ __class__ o = cls /\ name o = None /\ wf h o.

(** * Properties *)

(** ** IEEE-754 facts used below *)

Lemma Prim2SF_zero : Prim2SF 0%float = S754_zero false.
Proof. reflexivity. Qed.

Lemma binary_round_aux_nonneg m e l :
  SFnonneg (binary_round_aux prec emax false m e l) = true.
Proof.
  unfold binary_round_aux.
  destruct (shr_fexp prec emax m e l) as [r1 e1].
  destruct (shr_fexp prec emax _ e1 loc_Exact) as [r2 e2].
  destruct (shr_m r2); [reflexivity| |reflexivity].
  destruct (Z.leb e2 _); reflexivity.
Qed.

Lemma binary_round_nonneg m e :
  SFnonneg (binary_round prec emax false m e) = true.
Proof.
  unfold binary_round.
  destruct (shl_align m e _) as [mz ez]. apply binary_round_aux_nonneg.
Qed.

Lemma SFmul_self_nonneg x : SFnonneg (SF64mul x x) = true.
Proof.
  destruct x as [s|s| |s m e]; try (destruct s; reflexivity);
    try reflexivity.
  unfold SF64mul, SFmul.
  replace (xorb s s) with false by (destruct s; reflexivity).
  apply binary_round_aux_nonneg.
Qed.

Lemma SFadd_nonneg x y :
  SFnonneg x = true -> SFnonneg y = true -> SFnonneg (SF64add x y) = true.
Proof.
  destruct x as [sx|sx| |sx mx ex], y as [sy|sy| |sy my ey];
    simpl; intros Hx Hy;
    try apply negb_true_iff in Hx; try apply negb_true_iff in Hy; subst;
    try reflexivity; try (destruct sx; reflexivity);
    try (destruct sy; reflexivity);
    try (destruct sx, sy; reflexivity).
  unfold SF64add, SFadd, cond_Zopp, binary_normalize.
  cbv zeta. rewrite <- Pos2Z.inj_add. apply binary_round_nonneg.
Qed.

Lemma nonneg_not_negative (x : float) :
  SFnonneg (Prim2SF x) = true -> PrimFloat.ltb x 0%float = false.
Proof.
  rewrite ltb_spec, Prim2SF_zero.
  destruct (Prim2SF x) as [s|s| |s m e]; simpl; intros Hs;
    try apply negb_true_iff in Hs; subst; reflexivity.
Qed.

Lemma not_negative_nonneg (x : float) :
  PrimFloat.ltb x 0%float = false -> SFnonneg (Prim2SF x) = true.
Proof.
  rewrite ltb_spec, Prim2SF_zero.
  destruct (Prim2SF x) as [s|[]| |[] m e]; simpl;
    try reflexivity; discriminate.
Qed.

Lemma fold_add_nonneg (ts : list float) (acc : float) :
  SFnonneg (Prim2SF acc) = true ->
  Forall (fun t => SFnonneg (Prim2SF t) = true) ts ->
  SFnonneg (Prim2SF (fold_left PrimFloat.add ts acc)) = true.
Proof.
  intros Hacc Hts. revert acc Hacc.
  induction Hts as [|t ts Ht _ IH]; intros acc Hacc; simpl; [exact Hacc|].
  apply IH. rewrite add_spec. now apply SFadd_nonneg.
Qed.

(** A sum of terms that are not below zero is not below zero, so
    [math.sqrt] reports no domain error on it. *)
Lemma math_sqrt_nonneg (ts : list float) :
  Forall (fun t => SFnonneg (Prim2SF t) = true) ts ->
  math_sqrt (sum ts) = Ok (PrimFloat.sqrt (sum ts)).
Proof.
  intros Hts. unfold math_sqrt. rewrite nonneg_not_negative; [reflexivity|].
  now apply fold_add_nonneg.
Qed.

Lemma math_sqrt_error (x : float) e :
  math_sqrt x = Raise e -> e = ValueError.
Proof.
  unfold math_sqrt. destruct (PrimFloat.ltb x 0%float); congruence.
Qed.

Lemma SFmul_self_abs (a : spec_float) : SF64mul a a = SF64mul (SFabs a) (SFabs a).
Proof.
  destruct a as [[]|[]| |s m e]; try reflexivity.
  unfold SF64mul, SFmul, SFabs. now destruct s.
Qed.

Lemma mul_opp_opp (x : float) :
  PrimFloat.mul (PrimFloat.opp x) (PrimFloat.opp x) = PrimFloat.mul x x.
Proof.
  apply Prim2SF_inj. rewrite !mul_spec, opp_spec.
  rewrite (SFmul_self_abs (SFopp _)), (SFmul_self_abs (Prim2SF x)).
  now destruct (Prim2SF x).
Qed.

Lemma abs_cases (x : float) :
  PrimFloat.abs x = x \/ PrimFloat.abs x = PrimFloat.opp x.
Proof.
  destruct (Prim2SF x) as [[]|[]| |[] m e] eqn:Hx;
    [right|left|right|left|left|right|left];
    apply Prim2SF_inj; rewrite ?abs_spec, ?opp_spec, Hx; reflexivity.
Qed.

Lemma abs_zero_sub (x : float) :
  PrimFloat.abs (PrimFloat.sub 0%float x) = PrimFloat.abs x.
Proof.
  apply Prim2SF_inj. rewrite !abs_spec, sub_spec, Prim2SF_zero.
  destruct (Prim2SF x) as [[]|[]| |[] m e]; reflexivity.
Qed.

(** ** Squares *)

Lemma square_is_exact_opp (t : float) :
  square_is_exact (PrimFloat.opp t) = square_is_exact t.
Proof.
  unfold square_is_exact. rewrite mul_opp_opp, opp_spec.
  now destruct (Prim2SF t).
Qed.

Lemma float64_square_zero `{Numpy} : float64_square 0%float = 0%float.
Proof. reflexivity. Qed.

Section Squares.
Context `{LibmLaws}.

Lemma float64_square_opp (t : float) :
  float64_square (PrimFloat.opp t) = float64_square t.
Proof.
  unfold float64_square.
  now rewrite square_is_exact_opp, mul_opp_opp, pow_2_even.
Qed.

Lemma float64_square_abs (t : float) :
  float64_square (PrimFloat.abs t) = float64_square t.
Proof.
  destruct (abs_cases t) as [->| ->]; [reflexivity|apply float64_square_opp].
Qed.

(** The square looks at the magnitude only. *)
Lemma float64_square_same_abs (a b : float) :
  PrimFloat.abs a = PrimFloat.abs b -> float64_square a = float64_square b.
Proof.
  intros Hab.
  now rewrite <- (float64_square_abs a), Hab, float64_square_abs.
Qed.

Lemma float64_square_origin (x : float) :
  float64_square (PrimFloat.sub 0%float x) = float64_square x.
Proof. apply float64_square_same_abs, abs_zero_sub. Qed.

Lemma float64_square_nonneg (t : float) :
  SFnonneg (Prim2SF (float64_square t)) = true.
Proof.
  unfold float64_square. destruct (square_is_exact t).
  - rewrite mul_spec. apply SFmul_self_nonneg.
  - apply not_negative_nonneg, pow_2_not_negative.
Qed.

(** The radicand of [distance] is never below zero, so [math.sqrt] never
    reports a domain error there. *)
Lemma math_sqrt_sum_sq (xs ys : list float) :
  math_sqrt (sum (zip_with sq_diff xs ys))
  = Ok (PrimFloat.sqrt (sum (zip_with sq_diff xs ys))).
Proof.
  apply math_sqrt_nonneg.
  revert ys. induction xs as [|x xs IH]; intros [|y ys]; simpl;
    constructor; [apply float64_square_nonneg|apply IH].
Qed.

Lemma magnitude_ok (xs : list float) :
  magnitude xs
  = Ok (PrimFloat.sqrt
          (fold_left PrimFloat.add (map float64_square xs) 0%float)).
Proof.
  unfold magnitude.
  rewrite (map_ext _ float64_square) by apply float64_square_origin.
  apply math_sqrt_nonneg.
  induction xs; simpl; constructor; auto using float64_square_nonneg.
Qed.

End Squares.

(** A correctly rounded [pow] obeys the laws. *)
Lemma example_kernels_laws : @LibmLaws example_kernels.
Proof.
  split; intros t; simpl.
  - apply nonneg_not_negative. rewrite mul_spec. apply SFmul_self_nonneg.
  - apply mul_opp_opp.
Qed.

Lemma eqb_refl_not_nan (x : float) :
  is_nan x = false -> PrimFloat.eqb x x = true.
Proof. unfold is_nan. now intros H%negb_false_iff. Qed.

(** ** Stepping computations *)

Ltac run :=
  unfold mbind, M_bind, mret, M_ret, lift, raise, alloc, load, store; simpl.

Lemma bind_ok {A B} (m : M A) (k : A -> M B) (h h1 : heap) (a : A) :
  m h = (Ok a, h1) -> (m ≫= k) h = k a h1.
Proof. intros Hm. unfold mbind, M_bind. now rewrite Hm. Qed.

Lemma bind_raise {A B} (m : M A) (k : A -> M B) (h h1 : heap) e :
  m h = (Raise e, h1) -> (m ≫= k) h = (Raise e, h1).
Proof. intros Hm. unfold mbind, M_bind. now rewrite Hm. Qed.

Lemma bind_raise_inner {A B C} (m : M A) (k1 : A -> M B)
    (k2 : A -> B -> M C) (h h' : heap) e :
  (m ≫= k1) h = (Raise e, h') ->
  (m ≫= fun a => k1 a ≫= k2 a) h = (Raise e, h').
Proof.
  unfold mbind, M_bind. destruct (m h) as [[a|e0] h1].
  - intros Hk. now rewrite Hk.
  - now intros [= -> ->].
Qed.

Lemma mapM_length {A B} (f : A -> result B) (l : list A) (l' : list B) :
  mapM f l = Ok l' -> length l' = length l.
Proof.
  revert l'. induction l as [|a l IH]; intros l' H; simpl in H.
  - now inversion H.
  - destruct (f a); [|discriminate]. destruct (mapM f l); [|discriminate].
    inversion H; subst. simpl. f_equal. now apply IH.
Qed.

Lemma np_array_len (r : Vector_raw) (xs : list float) :
  np_array r = Ok xs -> length xs = len r.
Proof.
  destruct r as [l|l|[l|l]]; simpl; intros H.
  - now apply mapM_length in H.
  - now apply mapM_length in H.
  - now inversion H.
  - inversion H. now rewrite length_map.
Qed.

Lemma mapM_zeros (n : nat) :
  mapM float_of_Scalar (replicate n (PyInt 0)) = Ok (replicate n 0%float).
Proof.
  induction n as [|n IH]; simpl; [reflexivity|].
  simpl in IH. rewrite IH. reflexivity.
Qed.

Lemma buffer_alloc_old (h t : heap) (o : instance) :
  (coordinates o < length h)%nat -> buffer (h ++ t) o = buffer h o.
Proof. intros H. unfold buffer. now rewrite lookup_app_l. Qed.

Lemma buffer_alloc_new (h : heap) (xs : list float) cls nm :
  buffer (h ++ [xs]) (Instance cls (length h) nm) = xs.
Proof.
  unfold buffer. cbn [coordinates]. rewrite lookup_app_r by lia.
  now rewrite Nat.sub_diag.
Qed.

Lemma wf_alloc (h t : heap) (o : instance) : wf h o -> wf (h ++ t) o.
Proof.
  intros [Hl Hp]. split.
  - rewrite length_app. lia.
  - intros Hc. rewrite buffer_alloc_old by exact Hl. auto.
Qed.

(** The constructor on an input numpy can convert: a fresh buffer holding
    the converted cells, referred to by a new instance of the class. *)
Lemma new_ok cls (r : Vector_raw) nm (h : heap) (xs : list float) :
  np_array r = Ok xs ->
  (cls = ClsPoint -> len r = 2%nat) ->
  new cls r nm h = (Ok (Instance cls (length h) nm), h ++ [xs]).
Proof.
  intros Hr Hp. destruct cls; unfold new, Point.__init__, Vector.__init__.
  - run. now rewrite Hr.
  - rewrite decide_True by auto. run. now rewrite Hr.
Qed.

Lemma new_unconvertible cls (r : Vector_raw) nm (h : heap) e :
  np_array r = Raise e ->
  (cls = ClsPoint -> len r = 2%nat) ->
  new cls r nm h = (Raise e, h).
Proof.
  intros Hr Hp. destruct cls; unfold new, Point.__init__, Vector.__init__.
  - run. now rewrite Hr.
  - rewrite decide_True by auto. run. now rewrite Hr.
Qed.

Lemma new_point_wrong_length (r : Vector_raw) nm (h : heap) :
  len r <> 2%nat -> new ClsPoint r nm h = (Raise ValueError, h).
Proof.
  intros Hl. unfold new, Point.__init__. now rewrite decide_False by auto.
Qed.

Lemma new_wf cls (r : Vector_raw) nm (h h' : heap) (o : instance) :
  new cls r nm h = (Ok o, h') ->
  exists xs, np_array r = Ok xs /\ h' = h ++ [xs] /\
             o = Instance cls (length h) nm /\ wf h' o.
Proof.
  intros H. destruct (np_array r) as [xs|e] eqn:Hr.
  - destruct (decide (cls = ClsPoint -> len r = 2%nat)) as [Hp|Hp].
    + rewrite (new_ok _ _ _ _ _ Hr Hp) in H. inversion H; subst.
      exists xs. repeat split; auto.
      * simpl. rewrite length_app. simpl. lia.
      * intros Hc. rewrite buffer_alloc_new.
        simpl in Hc. rewrite (np_array_len _ _ Hr). auto.
    + destruct cls; [exfalso; apply Hp; discriminate|].
      rewrite new_point_wrong_length in H by (intros Hl; apply Hp; auto).
      discriminate.
  - destruct (decide (cls = ClsPoint -> len r = 2%nat)) as [Hp|Hp].
    + rewrite (new_unconvertible _ _ _ _ _ Hr Hp) in H. discriminate.
    + destruct cls; [exfalso; apply Hp; discriminate|].
      rewrite new_point_wrong_length in H by (intros Hl; apply Hp; auto).
      discriminate.
Qed.

(** [Point.vector] on an allocated point: a new base [Vector] over a copy of
    the cells. *)
Lemma vector_ok (h : heap) (o : instance) :
  vector o h
  = (Ok (VInstance (Instance ClsVector (length h) None)), h ++ [buffer h o]).
Proof. reflexivity. Qed.

(** ** The coercion protocol *)

(** C1. [to_class] on every kind of item: a raw sequence (tuple, list or
    array) goes through the constructor of the calling class, so a
    convertible one comes back as a new instance of that class over a fresh
    buffer; a [str] or [dict] raises [TypeError]; otherwise the value that
    [item.vector()] returns is returned (for a [Point]: a new base [Vector]
    over a copy of its cells); and an item without the method is returned
    unchanged, or raises [TypeError] when [no_scalar] is set. *)
Theorem to_class_protocol :
  (forall cls r ns h,
      to_class cls (VRaw r) ns h
      = match new cls r None h with
        | (Ok o, h') => (Ok (VInstance o), h')
        | (Raise e, h') => (Raise e, h')
        end) /\
  (forall cls r ns h xs,
      np_array r = Ok xs ->
      (cls = ClsPoint -> len r = 2%nat) ->
      to_class cls (VRaw r) ns h
      = (Ok (VInstance (Instance cls (length h) None)), h ++ [xs])) /\
  (forall cls item ns h,
      is_str_or_dict item = true ->
      to_class cls item ns h = (Raise TypeError, h)) /\
  (forall cls item ns h v h',
      is_raw item = false ->
      is_str_or_dict item = false ->
      call_vector item h = (Ok v, h') ->
      to_class cls item ns h = (Ok v, h')) /\
  (forall cls o ns h,
      __class__ o = ClsPoint ->
      to_class cls (VInstance o) ns h
      = (Ok (VInstance (Instance ClsVector (length h) None)),
         h ++ [buffer h o])) /\
  (forall cls item h,
      is_raw item = false ->
      is_str_or_dict item = false ->
      provides_vector item = false ->
      to_class cls item false h = (Ok item, h) /\
      to_class cls item true h = (Raise TypeError, h)).
Proof.
  split; [|split; [|split; [|split; [|split]]]].
  - intros cls r ns h. unfold to_class. run. now destruct (new cls r None h) as [[]].
  - intros cls r ns h xs Hr Hp. unfold to_class. run.
    now rewrite (new_ok _ _ _ _ _ Hr Hp).
  - intros cls [] ns h H; try discriminate H; reflexivity.
  - intros cls item ns h v h' Hraw Hsd Hv.
    destruct item; try discriminate Hraw; try discriminate Hsd;
      unfold to_class, try_except; now rewrite Hv.
  - intros cls o ns h Hc. unfold to_class, try_except, call_vector.
    rewrite Hc, vector_ok. reflexivity.
  - intros cls item h Hraw Hsd Hp.
    destruct item as [| | | | | | |o|[r|]];
      try discriminate; try (split; reflexivity).
    simpl in Hp. unfold to_class, try_except, call_vector.
    destruct (__class__ o); [split; reflexivity|discriminate].
Qed.

Lemma to_class_protocol_witness :
  to_class ClsPoint (VRaw (PyTuple [PyInt 1; PyFloat 2.5])) false []
  = (Ok (VInstance (Instance ClsPoint 0 None)), [[1%float; 2.5%float]]) /\
  to_class ClsVector (VStr "xy") false [] = (Raise TypeError, []) /\
  to_class ClsVector (Foreign (Some (Ok (VInt 7)))) true [] = (Ok (VInt 7), []) /\
  to_class ClsPoint (VInstance (Instance ClsPoint 0 (Some "p"%string))) false
    [[3%float; 4%float]]
  = (Ok (VInstance (Instance ClsVector 1 None)),
     [[3%float; 4%float]; [3%float; 4%float]]) /\
  to_class ClsVector (VInt 5) false [] = (Ok (VInt 5), []) /\
  to_class ClsVector (VInt 5) true [] = (Raise TypeError, []).
Proof.
  destruct to_class_protocol as (_ & Hraw & Hstr & Hvec & Hpoint & Hscalar).
  split; [|split; [|split; [|split]]].
  - apply (Hraw ClsPoint (PyTuple [PyInt 1; PyFloat 2.5]) false []
             [1%float; 2.5%float]); [reflexivity|intros _; reflexivity].
  - apply (Hstr ClsVector (VStr "xy") false []). reflexivity.
  - apply (Hvec ClsVector (Foreign (Some (Ok (VInt 7)))) true [] (VInt 7) []);
      reflexivity.
  - apply (Hpoint ClsPoint (Instance ClsPoint 0 (Some "p"%string)) false
             [[3%float; 4%float]]). reflexivity.
  - apply (Hscalar ClsVector (VInt 5) []); reflexivity.
Defined.

(** ** Deletion *)

(** C8. Deleting a coordinate raises [NotImplementedError] whatever the
    key, and leaves the store as it was: the receiver's cells and its
    dimensionality [d] are unchanged. *)
Theorem delitem_unsupported (self : instance) (key : value) (h : heap) :
  __delitem__ self key h = (Raise NotImplementedError, h) /\
  buffer (snd (__delitem__ self key h)) self = buffer h self /\
  fst (d self (snd (__delitem__ self key h))) = fst (d self h).
Proof. repeat split. Qed.

(** ** Bitwise inversion *)

(** C9. [~v] hands the coordinate array to numpy's [__invert__] and wraps
    what comes back in the receiver's class: an array whose element type
    supports inversion comes back inverted cell by cell and is wrapped in a
    new instance; one that does not raises [TypeError]. The coordinates of
    an instance are always float64, which does not, so [~v] raises
    [TypeError] and allocates nothing. *)
Theorem invert_unsupported :
  (forall cls zs h,
      supports_invert (Int64 zs) = true /\
      ((cls = ClsPoint -> length zs = 2%nat) ->
       wrap_invert cls (Int64 zs) h
       = (Ok (VInstance (Instance cls (length h) None)),
          h ++ [map float_of_Z (map Z.lnot zs)]))) /\
  (forall cls a h,
      supports_invert a = false ->
      wrap_invert cls a h = (Raise TypeError, h)) /\
  (forall self h,
      fst (get_array self h) = Ok (Float64 (buffer h self)) /\
      supports_invert (Float64 (buffer h self)) = false /\
      __invert__ self h = (Raise TypeError, h)).
Proof.
  split; [|split].
  - intros cls zs h. split; [reflexivity|]. intros Hp. unfold wrap_invert. run.
    rewrite (new_ok cls _ None h (map float_of_Z (map Z.lnot zs)));
      [reflexivity|reflexivity|].
    intros Hc. simpl. rewrite !length_map. auto.
  - intros cls [xs|zs] h H; [reflexivity|discriminate].
  - intros self h. repeat split.
Qed.

Lemma invert_unsupported_witness :
  wrap_invert ClsPoint (Int64 [0; 5]%Z) []
  = (Ok (VInstance (Instance ClsPoint 0 None)), [[(-1)%float; (-6)%float]]) /\
  wrap_invert ClsVector (Float64 [1%float]) [] = (Raise TypeError, []).
Proof.
  destruct invert_unsupported as (Hint & Hfloat & _). split.
  - apply (proj2 (Hint ClsPoint [0; 5]%Z [])). intros _. reflexivity.
  - apply (Hfloat ClsVector (Float64 [1%float]) []). reflexivity.
Defined.

(** ** Copying *)

(** C10. [v.copy()] returns a new instance of [v]'s class over a fresh
    buffer with the same cells; the name is not passed on, so the copy's
    [name] is [None] whatever [v]'s is; and an indexed assignment to either
    instance afterwards leaves the cells of the other as they were. *)
Theorem copy_independent (self : instance) (ord : order) (h : heap) :
  wf h self ->
  let c := Instance (__class__ self) (length h) None in
  let h' := h ++ [buffer h self] in
  copy self ord h = (Ok (VInstance c), h') /\
  name c = None /\
  __class__ c = __class__ self /\
  coordinates c <> coordinates self /\
  buffer h' c = buffer h self /\
  buffer h' self = buffer h self /\
  (forall key v r h2,
      __setitem__ c key v h' = (r, h2) -> buffer h2 self = buffer h self) /\
  (forall key v r h2,
      __setitem__ self key v h' = (r, h2) -> buffer h2 c = buffer h self).
Proof.
  intros [Hl Hp] c h'.
  assert (Hc : buffer h' c = buffer h self) by apply buffer_alloc_new.
  assert (Hs : buffer h' self = buffer h self) by now apply buffer_alloc_old.
  repeat split; auto.
  - unfold copy, ndarray_copy. run. fold (buffer h self).
    rewrite (new_ok _ _ None h (buffer h self)); [reflexivity|reflexivity|].
    simpl. auto.
  - simpl. lia.
  - intros key v r h2. unfold __setitem__. run.
    destruct (normalize_index _ key); [|intros [= _ <-]; exact Hs].
    destruct (float_of_Scalar v); [|intros [= _ <-]; exact Hs].
    intros [= _ <-]. rewrite <- Hs. unfold buffer.
    rewrite list_lookup_insert_ne by lia. reflexivity.
  - intros key v r h2. unfold __setitem__. run.
    destruct (normalize_index _ key); [|intros [= _ <-]; exact Hc].
    destruct (float_of_Scalar v); [|intros [= _ <-]; exact Hc].
    intros [= _ <-]. rewrite <- Hc. unfold buffer.
    subst c. cbn [coordinates].
    rewrite list_lookup_insert_ne by lia. reflexivity.
Qed.

Lemma copy_independent_witness :
  copy (Instance ClsPoint 0 (Some "p"%string)) C [[3%float; 4%float]]
  = (Ok (VInstance (Instance ClsPoint 1 None)),
     [[3%float; 4%float]; [3%float; 4%float]]).
Proof.
  apply (copy_independent (Instance ClsPoint 0 (Some "p"%string)) C
           [[3%float; 4%float]]).
  split; [simpl; lia|intros _; reflexivity].
Defined.

(** ** The store only grows *)

Lemma new_extends cls r nm (h h' : heap) (res : result instance) :
  new cls r nm h = (res, h') -> exists t, h' = h ++ t.
Proof.
  destruct (decide (cls = ClsPoint -> len r = 2%nat)) as [Hp|Hp].
  - destruct (np_array r) as [xs|e] eqn:Hr.
    + rewrite (new_ok _ _ _ _ _ Hr Hp). intros [= _ <-]. now exists [xs].
    + rewrite (new_unconvertible _ _ _ _ _ Hr Hp). intros [= _ <-].
      exists []. now rewrite app_nil_r.
  - destruct cls; [exfalso; apply Hp; discriminate|].
    rewrite new_point_wrong_length by (intros Hl; apply Hp; auto).
    intros [= _ <-]. exists []. now rewrite app_nil_r.
Qed.

Lemma to_class_extends cls item ns (h h' : heap) (res : result value) :
  to_class cls item ns h = (res, h') -> exists t, h' = h ++ t.
Proof.
  assert (Hnil : forall (r : result value),
             (r, h) = (res, h') -> exists t, h' = h ++ t).
  { intros r [= _ <-]. exists []. now rewrite app_nil_r. }
  destruct item as [| | | | | |r|o|[r|]]; unfold to_class, try_except;
    try (destruct ns; apply Hnil).
  - run. destruct (new cls r None h) as [[o|e] h1] eqn:Hn;
      intros [= _ <-]; eapply new_extends; eauto.
  - unfold call_vector. destruct (__class__ o).
    + destruct ns; apply Hnil.
    + rewrite vector_ok. intros [= _ <-]. eauto.
  - unfold call_vector, lift. destruct r as [v|e]; [apply Hnil|].
    destruct (decide (e = AttributeError)); [destruct ns|]; apply Hnil.
Qed.

(** ** Distance *)

Lemma zip_with_origin `{Numpy} (xs : list float) :
  zip_with sq_diff xs (replicate (length xs) 0%float)
  = map (fun x => float64_square (PrimFloat.sub 0%float x)) xs.
Proof.
  induction xs as [|x xs IH]; simpl; [reflexivity|].
  now rewrite IH.
Qed.

(** [self.distance()]: the magnitude, at the price of one zero vector
    allocated as origin. *)
Lemma distance_origin_none `{Numpy} (self : instance) (h : heap) :
  wf h self ->
  distance self VNone h
  = (magnitude (buffer h self),
     h ++ [replicate (length (buffer h self)) 0%float]).
Proof.
  intros [Hl Hp]. unfold distance, d. run. fold (buffer h self).
  set (xs := buffer h self) in *.
  rewrite (new_ok _ _ None h (replicate (length xs) 0%float));
    [|apply mapM_zeros|simpl; rewrite length_replicate; auto].
  simpl. run.
  rewrite !(lookup_app_r h _ (length h)) by lia. rewrite !Nat.sub_diag. simpl.
  rewrite !(lookup_app_l h _ (coordinates self)) by exact Hl. fold (buffer h self). fold xs.
  rewrite length_replicate.
  rewrite decide_False by (intros Hn; now apply Hn).
  rewrite !(lookup_app_r h _ (length h)) by lia. rewrite !Nat.sub_diag. simpl.
  rewrite !(lookup_app_l h _ (coordinates self)) by exact Hl. fold (buffer h self). fold xs.
  rewrite zip_with_origin. reflexivity.
Qed.

Lemma distance_origin_none_ok `{LibmLaws} (self : instance) (h : heap) :
  wf h self ->
  distance self VNone h
  = (Ok (PrimFloat.sqrt
           (fold_left PrimFloat.add (map float64_square (buffer h self))
              0%float)),
     h ++ [replicate (length (buffer h self)) 0%float]).
Proof. intros Hwf. now rewrite distance_origin_none, magnitude_ok. Qed.

Lemma distance_explicit `{Numpy} (self : instance) (origin : value) (h : heap) :
  origin <> VNone ->
  distance self origin h
  = (origin' ← to_class (__class__ self) origin false;
     od ← get_d origin';
     sd ← d self;
     if decide (od ≠ sd) then raise ValueError
     else
       xs ← load (coordinates self);
       ys ← get_coordinates origin';
       lift (math_sqrt (sum (zip_with sq_diff xs ys)))) h.
Proof. destruct origin; [congruence| |..]; reflexivity. Qed.

(** C4. [v.distance()] without origin is the root of the sum, taken from
    [0] in coordinate order, of the squares [(0 - x) ** 2] of [v]'s cells
    against a zero origin; with an origin that coerces to an instance of
    the same length it is the root of the sum of the squared per-axis
    differences [(x2 - x) ** 2], whatever that length; with one of another
    length it raises [ValueError]. Here the square of [t] is the product
    [t * t] where that is exact and [pow(t, 2.0)] of the C library
    elsewhere, and the root raises on a radicand below zero and is the IEEE
    square root otherwise. Given a C library whose [pow] keeps the two laws
    of squaring, the radicand is never below zero and [(0 - x) ** 2] is
    [x ** 2], so the result without origin is the square root of the sum of
    the squares of the cells. And [Vector((3,4)).distance(Vector((0,0)))]
    is [5.0]. *)
Theorem distance_euclidean `{Numpy} :
  let square (t : float) :=
    if square_is_exact t then PrimFloat.mul t t else libm_pow t 2 in
  let root (s : float) :=
    if PrimFloat.ltb s 0%float then Raise ValueError
    else Ok (PrimFloat.sqrt s) in
  (forall self h,
      wf h self ->
      fst (distance self VNone h)
      = root (fold_left PrimFloat.add
                (map (fun x => square (PrimFloat.sub 0%float x))
                   (buffer h self)) 0%float)) /\
  (forall self origin h o h1,
      wf h self ->
      to_class (__class__ self) origin false h = (Ok (VInstance o), h1) ->
      let xs := buffer h self in
      let ys := buffer h1 o in
      (length ys = length xs ->
       distance self origin h
       = (root (fold_left PrimFloat.add
                  (zip_with (fun x x2 => square (PrimFloat.sub x2 x)) xs ys)
                  0%float), h1)) /\
      (length ys <> length xs ->
       distance self origin h = (Raise ValueError, h1))) /\
  (LibmLaws ->
   (forall self h,
       wf h self ->
       fst (distance self VNone h)
       = Ok (PrimFloat.sqrt
               (fold_left PrimFloat.add (map square (buffer h self))
                  0%float))) /\
   (forall self origin h o h1,
       wf h self ->
       to_class (__class__ self) origin false h = (Ok (VInstance o), h1) ->
       length (buffer h1 o) = length (buffer h self) ->
       distance self origin h
       = (Ok (PrimFloat.sqrt
                (fold_left PrimFloat.add
                   (zip_with (fun x x2 => square (PrimFloat.sub x2 x))
                      (buffer h self) (buffer h1 o)) 0%float)), h1))) /\
  fst ((v ← new ClsVector (PyTuple [PyInt 3; PyInt 4]) None;
        o ← new ClsVector (PyTuple [PyInt 0; PyInt 0]) None;
        distance v (VInstance o)) [])
  = Ok 5%float.
Proof.
  assert (Horigin : forall self origin h o h1,
             wf h self ->
             to_class (__class__ self) origin false h
             = (Ok (VInstance o), h1) ->
             distance self origin h
             = (if decide (length (buffer h1 o) ≠ length (buffer h self))
                then Raise ValueError
                else math_sqrt (sum (zip_with sq_diff (buffer h self)
                                       (buffer h1 o))), h1)).
  { intros self origin h o h1 [Hl Hp] Hto.
    assert (Hnone : origin <> VNone).
    { intros ->. discriminate Hto. }
    destruct (to_class_extends _ _ _ _ _ _ Hto) as [t ->].
    rewrite (distance_explicit _ _ _ Hnone).
    rewrite (bind_ok _ _ _ _ _ Hto).
    unfold get_d, get_coordinates, d. run.
    fold (buffer (h ++ t) o).
    rewrite !(lookup_app_l h _ (coordinates self)) by exact Hl.
    fold (buffer h self).
    destruct (decide (length (buffer (h ++ t) o) ≠ length (buffer h self)));
      [reflexivity|].
    rewrite !(lookup_app_l h _ (coordinates self)) by exact Hl.
    reflexivity. }
  intros square root. change square with float64_square.
  change root with math_sqrt. clear square root.
  split; [|split; [|split]].
  - intros self h Hwf. now rewrite distance_origin_none.
  - intros self origin h o h1 Hwf Hto xs ys.
    rewrite (Horigin _ _ _ _ _ Hwf Hto). fold xs ys.
    split; intros Hlen.
    + now rewrite decide_False by auto.
    + now rewrite decide_True by auto.
  - intros Hlaws. split.
    + intros self h Hwf. now rewrite distance_origin_none_ok.
    + intros self origin h o h1 Hwf Hto Hlen.
      rewrite (Horigin _ _ _ _ _ Hwf Hto).
      rewrite decide_False by auto. now rewrite math_sqrt_sum_sq.
  - vm_compute. reflexivity.
Qed.

Lemma distance_euclidean_witness :
  fst (@distance example_kernels (Instance ClsPoint 0 None) VNone
         [[3%float; 4%float]])
  = Ok 5%float /\
  @distance example_kernels (Instance ClsVector 0 None)
    (VRaw (PyList [PyInt 4; PyInt 6])) [[1%float; 2%float]]
  = (Ok 5%float, [[1%float; 2%float]; [4%float; 6%float]]) /\
  @distance example_kernels (Instance ClsVector 0 None)
    (VRaw (PyTuple [PyInt 1; PyInt 2])) [[1%float; 2%float; 3%float]]
  = (Raise ValueError, [[1%float; 2%float; 3%float]; [1%float; 2%float]]).
Proof.
  destruct (@distance_euclidean example_kernels)
    as (_ & Horigin & Hlaws & _).
  destruct (Hlaws example_kernels_laws) as (Hnone & Hsame).
  split; [|split].
  - apply (Hnone (Instance ClsPoint 0 None) [[3%float; 4%float]]).
    split; [simpl; lia|intros _; reflexivity].
  - apply (Hsame (Instance ClsVector 0 None)
             (VRaw (PyList [PyInt 4; PyInt 6])) [[1%float; 2%float]]
             (Instance ClsVector 1 None)
             [[1%float; 2%float]; [4%float; 6%float]]).
    + split; [simpl; lia|discriminate].
    + reflexivity.
    + reflexivity.
  - apply (Horigin (Instance ClsVector 0 None)
             (VRaw (PyTuple [PyInt 1; PyInt 2]))
             [[1%float; 2%float; 3%float]]
             (Instance ClsVector 1 None)
             [[1%float; 2%float; 3%float]; [1%float; 2%float]]).
    + split; [simpl; lia|discriminate].
    + reflexivity.
    + simpl. lia.
Defined.

(** ** Coercing a valid operand *)

Arguments ufunc : simpl never.

(** A raw sequence the constructor accepts comes back as a new instance
    over a fresh buffer. *)
Lemma to_class_raw_ok cls (r : Vector_raw) ns (h : heap) (xs : list float) :
  np_array r = Ok xs ->
  (cls = ClsPoint -> len r = 2%nat) ->
  to_class cls (VRaw r) ns h
  = (Ok (VInstance (Instance cls (length h) None)), h ++ [xs]).
Proof.
  intros Hr Hp. unfold to_class. run. now rewrite (new_ok _ _ _ _ _ Hr Hp).
Qed.

(** A sequence-like operand coerces to an instance the class check accepts,
    holding the operand's cells; the store grows by at most that
    instance's buffer. *)
Lemma to_class_cells (h : heap) cls (other : value) (ys : list float) :
  operand_cells h cls other = Some (Cells ys) ->
  exists o t,
    to_class cls other false h = (Ok (VInstance o), h ++ t) /\
    isinstance (VInstance o) cls = true /\
    wf (h ++ t) o /\
    buffer (h ++ t) o = ys.
Proof.
  destruct other as [| | | | | |r|o|[r|]]; unfold operand_cells;
    try discriminate.
  - destruct (float_of_int z); discriminate.
  - destruct (np_array r) as [xs|e] eqn:Hr; [|discriminate].
    intros Hc.
    assert (Hp : cls = ClsPoint -> len r = 2%nat).
    { intros ->. now destruct (decide (len r = 2%nat)). }
    assert (xs = ys) as ->.
    { destruct cls; [|destruct (decide (len r = 2%nat))]; congruence. }
    exists (Instance cls (length h) None), [ys].
    rewrite (to_class_raw_ok cls r false h ys Hr Hp).
    repeat split.
    + simpl. now destruct cls.
    + simpl. rewrite length_app. simpl. lia.
    + intros Hcls. rewrite buffer_alloc_new, (np_array_len _ _ Hr). auto.
    + apply buffer_alloc_new.
  - destruct cls; [|discriminate].
    destruct (decide (coordinates o < length h)%nat) as [Hl|]; [|discriminate].
    intros [= <-]. destruct (__class__ o) eqn:Hc.
    + exists o, []. rewrite app_nil_r.
      unfold to_class, try_except, call_vector. rewrite Hc.
      repeat split; auto.
      * simpl. now rewrite Hc.
      * congruence.
    + exists (Instance ClsVector (length h) None), [buffer h o].
      unfold to_class, try_except, call_vector. rewrite Hc, vector_ok.
      repeat split.
      * simpl. rewrite length_app. simpl. lia.
      * discriminate.
      * apply buffer_alloc_new.
Qed.

(** A Python number passes through coercion unchanged and is stretched over
    the receiver by numpy. *)
Lemma to_class_stretch (h : heap) cls (other : value) (y : float) :
  operand_cells h cls other = Some (Stretch y) ->
  to_class cls other false h = (Ok other, h) /\
  isinstance other cls = false /\
  forall f xs, ufunc f xs (AsValue other) = Ok (map (fun x => f x y) xs).
Proof.
  destruct other as [| | | | | |r|o|[r|]]; unfold operand_cells;
    try discriminate.
  - intros [= <-]. repeat split.
  - destruct (float_of_int z) as [y'|] eqn:Hz; [|discriminate].
    intros [= <-]. repeat split. intros f xs. unfold ufunc. now rewrite Hz.
  - intros [= <-]. repeat split.
  - destruct (np_array r); [|discriminate].
    destruct cls; [|destruct (decide _)]; discriminate.
  - destruct cls; [|discriminate]. destruct (decide _); discriminate.
Qed.

Lemma broadcast_length {A} (f : float -> float -> A) xs ys zs :
  broadcast f xs ys = Ok zs ->
  length xs = length ys -> length zs = length xs.
Proof.
  unfold broadcast. intros H Hl. rewrite decide_True in H by exact Hl.
  inversion H. rewrite length_zip_with. lia.
Qed.

(** On a [Point] receiver every valid operand yields two cells again. *)
Lemma elementwise_point (h : heap) f (self : instance) other c zs :
  wf h self ->
  operand_cells h (__class__ self) other = Some c ->
  elementwise f (buffer h self) c = Ok zs ->
  __class__ self = ClsPoint -> length zs = 2%nat.
Proof.
  intros [Hl Hp] Hc Hz Hcls. specialize (Hp Hcls). rewrite Hcls in Hc.
  destruct c as [ys|y]; simpl in Hz.
  - destruct other as [| | | | | |r|o|[r|]]; simpl in Hc; try discriminate.
    + destruct (float_of_int z); discriminate.
    + destruct (np_array r) as [xs|] eqn:Hr; [|discriminate].
      destruct (decide (len r = 2%nat)) as [Hlen|]; [|discriminate].
      injection Hc as <-. apply np_array_len in Hr.
      rewrite (broadcast_length _ _ _ _ Hz); [auto|lia].
  - inversion Hz. now rewrite length_map.
Qed.

(** ** Elementwise arithmetic *)

Lemma arithmetic_spec (f : float -> float -> float) (self : instance)
    (other : value) (h : heap) (c : cells) (zs : list float) :
  wf h self ->
  operand_cells h (__class__ self) other = Some c ->
  elementwise f (buffer h self) c = Ok zs ->
  exists t,
    arithmetic f self other h
    = (Ok (VInstance (Instance (__class__ self) (length (h ++ t)) None)),
       (h ++ t) ++ [zs]).
Proof.
  intros Hwf Hc Hz.
  pose proof (elementwise_point _ _ _ _ _ _ Hwf Hc Hz) as Hlen.
  destruct Hwf as [Hl Hp]. unfold arithmetic. destruct c as [ys|y].
  - destruct (to_class_cells _ _ _ _ Hc) as (o & t & Hto & Hi & Hwo & Hb).
    exists t. unfold mbind at 1. unfold M_bind at 1. rewrite Hto.
    unfold coordinates_if_instance. rewrite Hi.
    unfold get_coordinates. run. fold (buffer (h ++ t) o). rewrite Hb.
    rewrite (lookup_app_l h _ (coordinates self)) by exact Hl.
    fold (buffer h self). unfold ufunc. simpl in Hz. rewrite Hz.
    rewrite (new_ok _ _ None (h ++ t) zs); [reflexivity|reflexivity|].
    simpl. auto.
  - destruct (to_class_stretch _ _ _ _ Hc) as (Hto & Hi & Hu).
    exists []. rewrite app_nil_r.
    unfold mbind at 1. unfold M_bind at 1. rewrite Hto.
    unfold coordinates_if_instance. rewrite Hi. run.
    fold (buffer h self). rewrite Hu. simpl in Hz. injection Hz as <-.
    rewrite (new_ok _ _ None h (map (fun x => f x y) (buffer h self)));
      [reflexivity|reflexivity|].
    simpl. auto.
Qed.

(** With a Python number as operand nothing is allocated for coercion: the
    result's buffer is the next one. *)
Lemma arithmetic_stretch (f : float -> float -> float) (self : instance)
    (other : value) (h : heap) (y : float) :
  wf h self ->
  operand_cells h (__class__ self) other = Some (Stretch y) ->
  arithmetic f self other h
  = (Ok (VInstance (Instance (__class__ self) (length h) None)),
     h ++ [map (fun x => f x y) (buffer h self)]).
Proof.
  intros [Hl Hp] Hc.
  destruct (to_class_stretch _ _ _ _ Hc) as (Hto & Hi & Hu).
  unfold arithmetic.
  unfold mbind at 1. unfold M_bind at 1. rewrite Hto.
  unfold coordinates_if_instance. rewrite Hi. run.
  fold (buffer h self). rewrite Hu.
  rewrite (new_ok _ _ None h (map (fun x => f x y) (buffer h self)));
    [reflexivity|reflexivity|].
  simpl. rewrite length_map. exact Hp.
Qed.

Lemma matmul_spec `{Numpy} (self : instance) (other : value) (h : heap)
    (ys : list float) :
  wf h self ->
  operand_cells h (__class__ self) other = Some (Cells ys) ->
  length ys = length (buffer h self) ->
  exists t,
    __matmul__ self other h = (Ok (VFloat (dot (buffer h self) ys)), h ++ t).
Proof.
  intros [Hl Hp] Hc Hlen.
  destruct (to_class_cells _ _ _ _ Hc) as (o & t & Hto & Hi & Hwo & Hb).
  exists t. unfold __matmul__.
  unfold mbind at 1. unfold M_bind at 1. rewrite Hto.
  unfold coordinates_if_instance. rewrite Hi.
  unfold get_coordinates. run. fold (buffer (h ++ t) o). rewrite Hb.
  rewrite (lookup_app_l h _ (coordinates self)) by exact Hl.
  fold (buffer h self). unfold dot_product. now rewrite decide_True by auto.
Qed.

(** An arithmetic operator runs the method of its left operand. *)
Lemma binary_arithmetic `{Numpy} (op : operator) f (self : instance)
    (other : value) :
  kernel op = Some f -> binary op self other = arithmetic f self other.
Proof. destruct op; intros [= <-]; destruct other; reflexivity. Qed.

(** A [Point] receiver hands every instance operand to numpy as a Python
    object: coercion returns a base [Vector], which is not an instance of
    [Point], so its buffer is not taken, and numpy has no arithmetic for
    the object. *)
Lemma arithmetic_point_instance (f : float -> float -> float)
    (self o : instance) (h : heap) :
  __class__ self = ClsPoint ->
  fst (arithmetic f self (VInstance o) h) = Raise TypeError.
Proof.
  intros Hc. unfold arithmetic. rewrite Hc.
  assert (Hto : exists v h',
             to_class ClsPoint (VInstance o) false h = (Ok (VInstance v), h')
             /\ __class__ v = ClsVector).
  { unfold to_class, try_except, call_vector. destruct (__class__ o) eqn:Ho.
    - exists o, h. split; [reflexivity|exact Ho].
    - rewrite vector_ok. eexists _, _. split; reflexivity. }
  destruct Hto as (v & h' & Hto & Hv).
  rewrite (bind_ok _ _ _ _ _ Hto).
  unfold coordinates_if_instance. simpl isinstance. rewrite Hv. reflexivity.
Qed.

(** On every well-formed receiver and every operand its class takes (a raw
    sequence, a Python number, or, on a base [Vector], an instance) each of
    [+ - * / // % **] returns a new instance of the receiver's runtime
    class, unnamed, over a fresh buffer holding the elementwise result, and
    leaves the receiver's cells alone; [@] returns the bare dot product as a
    float; and for a point [p], [p + (1,1)] is a [Point] again whose [x] and
    [y] read the two sums. *)
Lemma arithmetic_of_accepted_operands `{Numpy} :
  (forall op f self other h c zs,
      kernel op = Some f ->
      wf h self ->
      operand_cells h (__class__ self) other = Some c ->
      elementwise f (buffer h self) c = Ok zs ->
      exists l h',
        binary op self other h
        = (Ok (VInstance (Instance (__class__ self) l None)), h') /\
        (length h <= l)%nat /\
        buffer h' (Instance (__class__ self) l None) = zs /\
        buffer h' self = buffer h self) /\
  (forall self other h ys,
      wf h self ->
      operand_cells h (__class__ self) other = Some (Cells ys) ->
      length ys = length (buffer h self) ->
      exists h',
        binary OpMatMul self other h
        = (Ok (VFloat (dot (buffer h self) ys)), h')) /\
  fst ((p ← new ClsPoint (PyTuple [PyInt 1; PyInt 2]) (Some "p"%string);
        q ← binary OpAdd p (VRaw (PyTuple [PyInt 1; PyInt 1]));
        match q with
        | VInstance o => a ← x o; b ← y o; mret (__class__ o, a, b)
        | _ => raise TypeError
        end) [])
  = Ok (ClsPoint, VFloat 2, VFloat 3).
Proof.
  split; [|split].
  - intros op f self other h c zs Hk Hwf Hc Hz.
    rewrite (binary_arithmetic _ _ _ _ Hk).
    destruct (arithmetic_spec f _ _ _ _ _ Hwf Hc Hz) as [t Ht].
    exists (length (h ++ t)), ((h ++ t) ++ [zs]). rewrite Ht.
    repeat split.
    + rewrite length_app. lia.
    + apply buffer_alloc_new.
    + destruct Hwf as [Hl _]. rewrite <- app_assoc.
      now apply buffer_alloc_old.
  - intros self other h ys Hwf Hc Hlen.
    destruct (matmul_spec _ _ _ _ Hwf Hc Hlen) as [t Ht]. exists (h ++ t).
    rewrite <- Ht. now destruct other.
  - vm_compute. reflexivity.
Qed.

Lemma arithmetic_of_accepted_operands_example :
  (exists l h',
      @binary example_kernels OpMul (Instance ClsPoint 0 None) (VInt 3)
        [[1%float; 2%float]]
      = (Ok (VInstance (Instance ClsPoint l None)), h') /\
      (1 <= l)%nat /\
      buffer h' (Instance ClsPoint l None) = [3%float; 6%float] /\
      buffer h' (Instance ClsPoint 0 None) = [1%float; 2%float]) /\
  (exists l h',
      @binary example_kernels OpTrueDiv (Instance ClsVector 0 None)
        (VRaw (PyList [PyInt 2; PyFloat 0.5])) [[1%float; 2%float]]
      = (Ok (VInstance (Instance ClsVector l None)), h') /\
      (1 <= l)%nat /\
      buffer h' (Instance ClsVector l None) = [0.5%float; 4%float] /\
      buffer h' (Instance ClsVector 0 None) = [1%float; 2%float]).
Proof.
  destruct (@arithmetic_of_accepted_operands example_kernels)
    as (Harith & _ & _).
  split.
  - apply (Harith OpMul PrimFloat.mul (Instance ClsPoint 0 None) (VInt 3)
             [[1%float; 2%float]] (Stretch 3%float) [3%float; 6%float]).
    + reflexivity.
    + split; [simpl; lia|intros _; reflexivity].
    + reflexivity.
    + reflexivity.
  - apply (Harith OpTrueDiv PrimFloat.div (Instance ClsVector 0 None)
             (VRaw (PyList [PyInt 2; PyFloat 0.5])) [[1%float; 2%float]]
             (Cells [2%float; 0.5%float]) [0.5%float; 4%float]).
    + reflexivity.
    + split; [simpl; lia|discriminate].
    + reflexivity.
    + reflexivity.
Qed.

(** C3. Arithmetic is not closed on points: with a [Point] as receiver and
    any instance as right operand, a [Point] or a base [Vector], each of
    [+ - * / // % **] raises [TypeError] instead of returning a [Point]. So
    [Point((1,2)) + Point((3,4))] and [Point((1,2)) * Vector((3,4))] raise,
    while [Point((1,2)) + (3,4)] is the point [(4,6)] and the same operands
    on a base [Vector] receiver give the vector [(4,6)]. *)
Theorem arithmetic_not_closed_on_points `{Numpy} :
  (forall op f self o h,
      kernel op = Some f ->
      __class__ self = ClsPoint ->
      fst (binary op self (VInstance o) h) = Raise TypeError) /\
  let built cls cls' op :=
    fst ((p ← new cls (PyTuple [PyInt 1; PyInt 2]) None;
          q ← new cls' (PyTuple [PyInt 3; PyInt 4]) None;
          r ← binary op p (VInstance q);
          observe r) []) in
  let raw cls op :=
    fst ((p ← new cls (PyTuple [PyInt 1; PyInt 2]) None;
          r ← binary op p (VRaw (PyTuple [PyInt 3; PyInt 4]));
          observe r) []) in
  built ClsPoint ClsPoint OpAdd = Raise TypeError /\
  built ClsPoint ClsVector OpMul = Raise TypeError /\
  raw ClsPoint OpAdd = Ok (IsInstance ClsPoint [4%float; 6%float]) /\
  raw ClsPoint OpMul = Ok (IsInstance ClsPoint [3%float; 8%float]) /\
  built ClsVector ClsVector OpAdd
  = Ok (IsInstance ClsVector [4%float; 6%float]) /\
  built ClsVector ClsPoint OpAdd
  = Ok (IsInstance ClsVector [4%float; 6%float]) /\
  built ClsVector ClsPoint OpMul
  = Ok (IsInstance ClsVector [3%float; 8%float]).
Proof.
  split.
  - intros op f self o h Hk Hc. rewrite (binary_arithmetic _ _ _ _ Hk).
    now apply arithmetic_point_instance.
  - vm_compute. repeat split.
Qed.

Lemma arithmetic_not_closed_on_points_witness :
  fst (@binary example_kernels OpSub (Instance ClsPoint 0 None)
         (VInstance (Instance ClsPoint 1 None))
         [[1%float; 2%float]; [3%float; 4%float]])
  = Raise TypeError.
Proof.
  destruct (@arithmetic_not_closed_on_points example_kernels) as [Hpoint _].
  apply (Hpoint OpSub PrimFloat.sub (Instance ClsPoint 0 None)
           (Instance ClsPoint 1 None)
           [[1%float; 2%float]; [3%float; 4%float]]); reflexivity.
Defined.

(** ** Comparisons *)

(** On an operand the receiver's class accepts, an ordering method compares
    the two magnitudes, the receiver's computed first. *)
Lemma ordering_by_magnitude `{Numpy} (cmp : float -> float -> bool)
    (self : instance) (other : value) (h : heap) (ys : list float) :
  wf h self ->
  operand_cells h (__class__ self) other = Some (Cells ys) ->
  fst (ordering cmp self other h)
  = match magnitude (buffer h self) with
    | Ok a =>
        match magnitude ys with
        | Ok b => Ok (VBool (cmp a b))
        | Raise e => Raise e
        end
    | Raise e => Raise e
    end.
Proof.
  intros Hwf Hc.
  destruct (to_class_cells _ _ _ _ Hc) as (o & t & Hto & Hi & Hwo & Hb).
  unfold ordering.
  unfold mbind at 1. unfold M_bind at 1. rewrite Hto.
  unfold check_class. rewrite Hi.
  unfold mbind at 1. unfold M_bind at 1. unfold mret at 1. unfold M_ret at 1.
  unfold mbind at 1. unfold M_bind at 1.
  rewrite (distance_origin_none self (h ++ t)) by now apply wf_alloc.
  destruct Hwf as [Hl _]. pose proof Hwo as [Hlo _].
  rewrite (buffer_alloc_old h t self) by exact Hl.
  destruct (magnitude (buffer h self)) as [a|e]; [|reflexivity].
  unfold mbind at 1. unfold M_bind at 1. unfold call_distance.
  rewrite distance_origin_none by now apply wf_alloc.
  rewrite (buffer_alloc_old (h ++ t) _ o) by exact Hlo.
  rewrite Hb. now destruct (magnitude ys).
Qed.

(** A [Point] receiver turns down every instance operand: coercion hands
    back a base [Vector] (converted from a [Point], or passed through),
    which the class check against [Point] rejects. *)
Lemma point_rejects_instances (self o : instance) (h : heap) :
  __class__ self = ClsPoint ->
  exists v h',
    to_class (__class__ self) (VInstance o) false h = (Ok v, h') /\
    check_class (__class__ self) v h' = (Raise TypeError, h').
Proof.
  intros Hc. rewrite Hc. unfold to_class, try_except, call_vector.
  destruct (__class__ o) eqn:Ho.
  - exists (VInstance o), h. split; [reflexivity|].
    unfold check_class. simpl. now rewrite Ho.
  - rewrite vector_ok. eexists _, _. split; reflexivity.
Qed.

Lemma ordering_point_instance `{Numpy} (cmp : float -> float -> bool)
    (self o : instance) (h : heap) :
  __class__ self = ClsPoint ->
  fst (ordering cmp self (VInstance o) h) = Raise TypeError.
Proof.
  intros Hc. destruct (point_rejects_instances self o h Hc)
    as (v & h' & Hto & Hck).
  unfold ordering. unfold mbind at 1. unfold M_bind at 1. rewrite Hto.
  unfold mbind at 1. unfold M_bind at 1. now rewrite Hck.
Qed.

(** C2. Two points compared with [<]: the operand is coerced through
    [Point.vector] to a base [Vector], the class check against [Point]
    rejects it, and the comparison raises [TypeError], where two base
    vectors with the same cells compare by magnitude ([1 < 2]). The same
    happens for [>], [<=] and [>=]. *)
Theorem ordering_of_points_raises `{Numpy} :
  let points (m : instance -> value -> M value) :=
    fst ((p ← new ClsPoint (PyTuple [PyInt 1; PyInt 0]) None;
          q ← new ClsPoint (PyTuple [PyInt 0; PyInt 2]) None;
          m p (VInstance q)) []) in
  let vectors (m : instance -> value -> M value) :=
    fst ((p ← new ClsVector (PyTuple [PyInt 1; PyInt 0]) None;
          q ← new ClsVector (PyTuple [PyInt 0; PyInt 2]) None;
          m p (VInstance q)) []) in
  points __lt__ = Raise TypeError /\
  points __gt__ = Raise TypeError /\
  points __le__ = Raise TypeError /\
  points __ge__ = Raise TypeError /\
  vectors __lt__ = Ok (VBool true) /\
  vectors __gt__ = Ok (VBool false) /\
  vectors __le__ = Ok (VBool true) /\
  vectors __ge__ = Ok (VBool false).
Proof. vm_compute. repeat split. Qed.

(** ** Equality *)

Lemma eq_spec (self : instance) (other : value) (h : heap)
    (ys : list float) :
  wf h self ->
  operand_cells h (__class__ self) other = Some (Cells ys) ->
  exists t,
    __eq__ self other h
    = (match all_eq (buffer h self) ys with
       | Ok b => Ok (VBool b)
       | Raise e => Raise e
       end, h ++ t).
Proof.
  intros [Hl _] Hc.
  destruct (to_class_cells _ _ _ _ Hc) as (o & t & Hto & Hi & Hwo & Hb).
  exists t. unfold __eq__.
  unfold mbind at 1. unfold M_bind at 1. rewrite Hto.
  unfold check_class. rewrite Hi. unfold get_coordinates. run.
  fold (buffer (h ++ t) o). rewrite Hb.
  rewrite (lookup_app_l h _ (coordinates self)) by exact Hl.
  fold (buffer h self). now destruct (all_eq (buffer h self) ys).
Qed.

Lemma all_eq_same_length (xs ys : list float) :
  length xs = length ys ->
  all_eq xs ys = Ok (forallb id (zip_with PrimFloat.eqb xs ys)).
Proof.
  intros Hl. unfold all_eq, broadcast. now rewrite decide_True by exact Hl.
Qed.

Lemma forallb_zip_eqb (xs ys : list float) :
  forallb id (zip_with PrimFloat.eqb xs ys) = true <->
  (forall i x y, xs !! i = Some x -> ys !! i = Some y ->
                 PrimFloat.eqb x y = true).
Proof.
  revert ys. induction xs as [|x xs IH]; intros [|y ys]; simpl.
  - split; [intros _ i a b Hi; discriminate Hi|reflexivity].
  - split; [intros _ i a b Hi; discriminate Hi|reflexivity].
  - split; [intros _ i a b _ Hi; discriminate Hi|reflexivity].
  - unfold id at 1. rewrite andb_true_iff, IH. split.
    + intros [Hxy Hrest] [|i] a b; simpl.
      * now intros [= <-] [= <-].
      * apply Hrest.
    + intros Hall. split.
      * now apply (Hall 0%nat).
      * intros i a b. apply (Hall (S i)).
Qed.

Lemma forallb_zip_eqb_refl (xs : list float) :
  nan_free xs = true -> forallb id (zip_with PrimFloat.eqb xs xs) = true.
Proof.
  unfold nan_free. induction xs as [|x xs IH]; simpl; [reflexivity|].
  rewrite andb_true_iff, negb_true_iff. intros [Hx Hxs].
  unfold id at 1. rewrite (eqb_refl_not_nan _ Hx). now apply IH.
Qed.

(** Two base vectors built one after the other, then compared. *)
Lemma eq_of_two_vectors (c c' : Vector_raw) nm nm' (h : heap)
    (xs ys : list float) :
  np_array c = Ok xs ->
  np_array c' = Ok ys ->
  fst ((v ← new ClsVector c nm;
        w ← new ClsVector c' nm';
        __eq__ v (VInstance w)) h)
  = match all_eq xs ys with
    | Ok b => Ok (VBool b)
    | Raise e => Raise e
    end.
Proof.
  intros Hx Hy.
  unfold mbind at 1. unfold M_bind at 1.
  rewrite (new_ok _ _ nm h xs Hx) by discriminate.
  unfold mbind at 1. unfold M_bind at 1.
  rewrite (new_ok _ _ nm' (h ++ [xs]) ys Hy) by discriminate.
  set (v := Instance ClsVector (length h) nm).
  set (w := Instance ClsVector (length (h ++ [xs])) nm').
  set (h2 := (h ++ [xs]) ++ [ys]).
  assert (Hv : wf h2 v).
  { split; [|discriminate]. subst h2. simpl. rewrite !length_app. simpl. lia. }
  assert (Hbv : buffer h2 v = xs).
  { subst h2 v. rewrite buffer_alloc_old; [apply buffer_alloc_new|].
    simpl. rewrite length_app. simpl. lia. }
  assert (Hbw : buffer h2 w = ys) by apply buffer_alloc_new.
  destruct (eq_spec v (VInstance w) h2 ys Hv) as [t Ht].
  - simpl. rewrite decide_True; [now rewrite Hbw|].
    subst h2. rewrite !length_app. simpl. lia.
  - rewrite Ht, Hbv. reflexivity.
Qed.

(** Where [==] answers, it has run the receiver's [__eq__]. *)
Lemma binary_eq_cells `{Numpy} (self : instance) (other : value) (h : heap)
    (ys : list float) :
  comparison_cells h self other = Some ys ->
  binary OpEq self other = __eq__ self other /\
  operand_cells h (__class__ self) other = Some (Cells ys).
Proof.
  destruct other as [| | | | | |r|o|[r|]]; try discriminate.
  - unfold comparison_cells. intros Hc. split; [reflexivity|].
    destruct (operand_cells h (__class__ self) (VRaw r)) as [[zs|z]|];
      congruence.
  - unfold comparison_cells, binary, proper_subclass.
    destruct (__class__ self), (__class__ o); try discriminate.
    destruct (decide (coordinates o < length h)%nat) as [Hl|]; [|discriminate].
    intros [= <-]. split; [reflexivity|].
    simpl. now rewrite decide_True by exact Hl.
Qed.

Lemma binary_eq_vectors `{Numpy} (v w : instance) :
  __class__ v = ClsVector -> __class__ w = ClsVector ->
  binary OpEq v (VInstance w) = __eq__ v (VInstance w).
Proof. intros Hv Hw. unfold binary, proper_subclass. now rewrite Hv, Hw. Qed.

(** C5. [==] coerces the operand and checks its class. On a raw sequence
    the receiver's class accepts, or between two base vectors, with as many
    cells in the operand as in the receiver, it returns [True] exactly when
    every pair of cells compares equal under IEEE [==] (no tolerance; [+0.0]
    equals [-0.0], NaN equals nothing). So [Vector(c) == Vector(c)] holds for
    every [c] without a NaN cell, and [Vector(c) == Vector(c')] is [False]
    whenever [c] and [c'] have one length and some pair of cells compares
    unequal. *)
Theorem eq_coordinatewise `{Numpy} :
  (forall self other h ys,
      wf h self ->
      comparison_cells h self other = Some ys ->
      length ys = length (buffer h self) ->
      exists b h',
        binary OpEq self other h = (Ok (VBool b), h') /\
        (b = true <->
         forall i x y, buffer h self !! i = Some x -> ys !! i = Some y ->
                       PrimFloat.eqb x y = true)) /\
  (forall c nm nm' h xs,
      np_array c = Ok xs ->
      nan_free xs = true ->
      fst ((v ← new ClsVector c nm;
            w ← new ClsVector c nm';
            binary OpEq v (VInstance w)) h)
      = Ok (VBool true)) /\
  (forall c c' nm nm' h xs ys i x y,
      np_array c = Ok xs ->
      np_array c' = Ok ys ->
      length xs = length ys ->
      xs !! i = Some x ->
      ys !! i = Some y ->
      PrimFloat.eqb x y = false ->
      fst ((v ← new ClsVector c nm;
            w ← new ClsVector c' nm';
            binary OpEq v (VInstance w)) h)
      = Ok (VBool false)).
Proof.
  assert (Hbin : forall c c' nm nm' h,
             fst ((v ← new ClsVector c nm;
                   w ← new ClsVector c' nm';
                   binary OpEq v (VInstance w)) h)
             = fst ((v ← new ClsVector c nm;
                     w ← new ClsVector c' nm';
                     __eq__ v (VInstance w)) h)).
  { intros c c' nm nm' h. unfold mbind at 1 3. unfold M_bind at 1 3.
    destruct (new ClsVector c nm h) as [[v|e] h1] eqn:Hv; [|reflexivity].
    unfold mbind at 1 2. unfold M_bind at 1 2.
    destruct (new ClsVector c' nm' h1) as [[w|e] h2] eqn:Hw; [|reflexivity].
    destruct (new_wf _ _ _ _ _ _ Hv) as (? & _ & _ & -> & _).
    destruct (new_wf _ _ _ _ _ _ Hw) as (? & _ & _ & -> & _).
    now rewrite binary_eq_vectors. }
  split; [|split].
  - intros self other h ys Hwf Hcmp Hlen.
    destruct (binary_eq_cells _ _ _ _ Hcmp) as [-> Hc].
    destruct (eq_spec _ _ _ _ Hwf Hc) as [t Ht].
    rewrite all_eq_same_length in Ht by auto.
    eexists _, _. split; [exact Ht|]. apply forallb_zip_eqb.
  - intros c nm nm' h xs Hx Hnan.
    rewrite Hbin, (eq_of_two_vectors c c nm nm' h xs xs Hx Hx).
    rewrite all_eq_same_length by reflexivity.
    now rewrite forallb_zip_eqb_refl.
  - intros c c' nm nm' h xs ys i a b Hx Hy Hlen Ha Hb Hab.
    rewrite Hbin, (eq_of_two_vectors c c' nm nm' h xs ys Hx Hy).
    rewrite all_eq_same_length by exact Hlen.
    destruct (forallb id (zip_with PrimFloat.eqb xs ys)) eqn:Hall;
      [|reflexivity].
    apply forallb_zip_eqb with (i := i) (x := a) (y := b) in Hall; auto.
    congruence.
Qed.

Lemma eq_coordinatewise_witness :
  (exists b h',
      @binary example_kernels OpEq (Instance ClsVector 0 None)
        (VRaw (PyTuple [PyInt 1; PyInt 0])) [[1%float; 0%float]]
      = (Ok (VBool b), h') /\
      (b = true <->
       forall i x y, buffer [[1%float; 0%float]] (Instance ClsVector 0 None)
                       !! i = Some x ->
                     [1%float; 0%float] !! i = Some y ->
                     PrimFloat.eqb x y = true)) /\
  fst ((v ← new ClsVector (PyTuple [PyInt 1; PyFloat (-0)]) None;
        w ← new ClsVector (PyTuple [PyInt 1; PyFloat (-0)]) (Some "w"%string);
        @binary example_kernels OpEq v (VInstance w)) [])
  = Ok (VBool true) /\
  fst ((v ← new ClsVector (PyTuple [PyInt 1; PyInt 0]) None;
        w ← new ClsVector (PyTuple [PyInt 0; PyInt 1]) None;
        @binary example_kernels OpEq v (VInstance w)) [])
  = Ok (VBool false).
Proof.
  destruct (@eq_coordinatewise example_kernels) as (Hiff & Hrefl & Hdiff).
  split; [|split].
  - apply (Hiff (Instance ClsVector 0 None)
             (VRaw (PyTuple [PyInt 1; PyInt 0])) [[1%float; 0%float]]
             [1%float; 0%float]).
    + split; [simpl; lia|discriminate].
    + reflexivity.
    + reflexivity.
  - apply (Hrefl (PyTuple [PyInt 1; PyFloat (-0)]) None (Some "w"%string) []
             [1%float; (-0)%float]); reflexivity.
  - apply (Hdiff (PyTuple [PyInt 1; PyInt 0]) (PyTuple [PyInt 0; PyInt 1])
             None None [] [1%float; 0%float] [0%float; 1%float] 0%nat
             1%float 0%float); reflexivity.
Defined.

(** Where the claim as worded fails: a NaN cell is unequal to itself, so
    [Vector((nan,)) == Vector((nan,))] is [False]; and a one-cell operand is
    stretched, so [Vector((1,1)) == Vector((1,))] is [True] although the
    second vector has no second coordinate. *)
Lemma eq_reflexive_counterexample :
  fst ((v ← new ClsVector (PyTuple [PyFloat nan]) None;
        w ← new ClsVector (PyTuple [PyFloat nan]) None;
        __eq__ v (VInstance w)) [])
  = Ok (VBool false) /\
  fst ((v ← new ClsVector (PyTuple [PyInt 1; PyInt 1]) None;
        w ← new ClsVector (PyTuple [PyInt 1]) None;
        __eq__ v (VInstance w)) [])
  = Ok (VBool true).
Proof. vm_compute. split; reflexivity. Qed.

(** ** Raw operands against instance operands *)

(** On a base [Vector] receiver, a raw tuple and a [Vector] built from it
    beforehand are indistinguishable to every binary operator: same result,
    same final store. *)
Lemma coercion_transparent_vector `{Numpy} (op : operator) (self : instance)
    (t : list Scalar) nm (h h1 : heap) (i : instance) :
  __class__ self = ClsVector ->
  new ClsVector (PyTuple t) nm h = (Ok i, h1) ->
  binary op self (VRaw (PyTuple t)) h = binary op self (VInstance i) h1.
Proof.
  intros Hc Hn. destruct (new_wf _ _ _ _ _ _ Hn) as (xs & Hx & -> & -> & _).
  assert (Hraw : to_class ClsVector (VRaw (PyTuple t)) false h
                 = (Ok (VInstance (Instance ClsVector (length h) None)),
                    h ++ [xs])).
  { apply to_class_raw_ok; [exact Hx|discriminate]. }
  destruct self as [cls l nm0]. simpl in Hc. subst cls.
  destruct op; unfold binary, proper_subclass; cbn -[method];
    unfold method, __add__, __sub__, __mul__, __truediv__,
    __floordiv__, __mod__, __pow__, __matmul__, __eq__, __lt__, __gt__,
    __le__, __ge__, arithmetic, ordering; cbn [__class__];
    unfold mbind at 1; unfold M_bind at 1; rewrite Hraw; reflexivity.
Qed.

(** C6. A point receiver tells a raw tuple from a vector built from it:
    [Point((1,2)) + (1,1)] is the point [(2,3)] and [Point((1,2)) < (3,4)]
    is [True], while with [Vector((1,1))], resp. [Vector((3,4))], as operand
    both raise [TypeError]: coercion leaves the base vector as it is, it is
    not an instance of [Point], so [+] passes the object itself to numpy and
    [<] fails the class check. On a base [Vector] receiver the two operands
    give the same results. *)
Theorem point_tells_tuple_from_vector `{Numpy} :
  let raw cls (t : list Scalar) (m : instance -> value -> M value) :=
    fst ((p ← new cls (PyTuple [PyInt 1; PyInt 2]) None;
          r ← m p (VRaw (PyTuple t));
          observe r) []) in
  let built cls (t : list Scalar) (m : instance -> value -> M value) :=
    fst ((p ← new cls (PyTuple [PyInt 1; PyInt 2]) None;
          v ← new ClsVector (PyTuple t) None;
          r ← m p (VInstance v);
          observe r) []) in
  raw ClsPoint [PyInt 1; PyInt 1] __add__
  = Ok (IsInstance ClsPoint [2%float; 3%float]) /\
  built ClsPoint [PyInt 1; PyInt 1] __add__ = Raise TypeError /\
  raw ClsPoint [PyInt 3; PyInt 4] __lt__ = Ok (IsValue (VBool true)) /\
  built ClsPoint [PyInt 3; PyInt 4] __lt__ = Raise TypeError /\
  raw ClsVector [PyInt 1; PyInt 1] __add__
  = Ok (IsInstance ClsVector [2%float; 3%float]) /\
  built ClsVector [PyInt 1; PyInt 1] __add__
  = Ok (IsInstance ClsVector [2%float; 3%float]) /\
  raw ClsVector [PyInt 3; PyInt 4] __lt__ = Ok (IsValue (VBool true)) /\
  built ClsVector [PyInt 3; PyInt 4] __lt__ = Ok (IsValue (VBool true)).
Proof. vm_compute. repeat split. Qed.

(** ** Division by zero *)

Lemma Prim2SF_infinity : Prim2SF infinity = S754_infinity false.
Proof. reflexivity. Qed.

Lemma is_zero_spec (y : float) :
  is_zero y = true -> exists s, Prim2SF y = S754_zero s.
Proof.
  unfold is_zero. rewrite FloatAxioms.eqb_spec.
  change (Prim2SF zero) with (S754_zero false).
  destruct (Prim2SF y) as [s|[]| |[] m e]; try discriminate. eauto.
Qed.

(** A float64 divided by a zero is infinite, or NaN (for [0/0] and NaN). *)
Lemma div_zero_cell (x y : float) :
  is_zero y = true ->
  is_infinity (PrimFloat.div x y) = true \/ is_nan (PrimFloat.div x y) = true.
Proof.
  intros [s Hy]%is_zero_spec.
  unfold is_infinity, is_nan.
  rewrite !FloatAxioms.eqb_spec, abs_spec, div_spec, Hy, Prim2SF_infinity.
  destruct (Prim2SF x) as [sx|sx| |sx m e]; simpl; auto.
Qed.

Lemma zero_scalar_cells (h : heap) cls (z : value) (y : float) :
  zero_scalar z = Some y ->
  operand_cells h cls z = Some (Stretch y) /\ is_zero y = true.
Proof.
  destruct z as [|[]|[]| | | | | |]; simpl; try discriminate.
  - intros [= <-]. split; reflexivity.
  - intros [= <-]. split; reflexivity.
  - destruct (is_zero f) eqn:Hz; [|discriminate]. intros [= <-]. auto.
Qed.

(** C7. A zero divisor raises nothing. With a zero number as divisor [/]
    and [//] return a new instance of the receiver's class whose cells are
    what the float64 kernels yield, for [/] an infinity or NaN in every
    cell; with a sequence-like operand that the receiver's class accepts
    and that broadcasts against the receiver they return the cell-by-cell
    quotients, whether or not a divisor cell is zero. *)
Theorem division_by_zero_no_error `{Numpy} :
  (forall self z y h,
      wf h self ->
      zero_scalar z = Some y ->
      __truediv__ self z h
      = (Ok (VInstance (Instance (__class__ self) (length h) None)),
         h ++ [map (fun x => PrimFloat.div x y) (buffer h self)]) /\
      __floordiv__ self z h
      = (Ok (VInstance (Instance (__class__ self) (length h) None)),
         h ++ [map (fun x => floor_divide x y) (buffer h self)]) /\
      Forall (fun q => is_infinity q = true \/ is_nan q = true)
        (map (fun x => PrimFloat.div x y) (buffer h self))) /\
  (forall self other ys zs f h,
      wf h self ->
      operand_cells h (__class__ self) other = Some (Cells ys) ->
      f = PrimFloat.div \/ f = floor_divide ->
      broadcast f (buffer h self) ys = Ok zs ->
      exists l h',
        arithmetic f self other h
        = (Ok (VInstance (Instance (__class__ self) l None)), h') /\
        buffer h' (Instance (__class__ self) l None) = zs).
Proof.
  split.
  - intros self z y h Hwf Hz.
    destruct (zero_scalar_cells h (__class__ self) z y Hz) as [Hc Hy].
    split; [|split].
    + unfold __truediv__. now apply arithmetic_stretch.
    + unfold __floordiv__. now apply arithmetic_stretch.
    + induction (buffer h self) as [|x xs IH]; simpl; constructor;
        auto using div_zero_cell.
  - intros self other ys zs f h Hwf Hc _ Hz.
    destruct (arithmetic_spec f self other h (Cells ys) zs Hwf Hc Hz)
      as [t Ht].
    eexists _, _. split; [exact Ht|]. apply buffer_alloc_new.
Qed.

Lemma division_by_zero_no_error_witness :
  __truediv__ (Instance ClsPoint 0 None) (VFloat (-0)%float)
    [[1%float; 0%float]]
  = (Ok (VInstance (Instance ClsPoint 1 None)),
     [[1%float; 0%float]; [neg_infinity; nan]]) /\
  (exists l h',
      arithmetic PrimFloat.div (Instance ClsVector 0 None)
        (VRaw (PyList [PyInt 0; PyInt 4])) [[1%float; 2%float]]
      = (Ok (VInstance (Instance ClsVector l None)), h') /\
      buffer h' (Instance ClsVector l None) = [infinity; 0.5%float]).
Proof.
  destruct (@division_by_zero_no_error example_kernels)
    as [Hzero Hcells].
  split.
  - apply (Hzero (Instance ClsPoint 0 None) (VFloat (-0)%float) (-0)%float
             [[1%float; 0%float]]).
    + split; [simpl; lia|intros _; reflexivity].
    + reflexivity.
  - apply (Hcells (Instance ClsVector 0 None)
             (VRaw (PyList [PyInt 0; PyInt 4])) [0%float; 4%float]
             [infinity; 0.5%float] PrimFloat.div [[1%float; 2%float]]).
    + split; [simpl; lia|discriminate].
    + reflexivity.
    + now left.
    + reflexivity.
Defined.

(** Where the claim as worded fails: [Vector((1,2)) / 0] is the vector
    [(inf, inf)], and [Vector((1,2)) / (1,0)] is [(1.0, inf)]; neither
    raises. *)
Lemma division_by_zero_counterexample :
  fst ((v ← new ClsVector (PyTuple [PyInt 1; PyInt 2]) None;
        r ← __truediv__ v (VInt 0);
        observe r) [])
  = Ok (IsInstance ClsVector [infinity; infinity]) /\
  fst ((v ← new ClsVector (PyTuple [PyInt 1; PyInt 2]) None;
        r ← __truediv__ v (VRaw (PyTuple [PyInt 1; PyInt 0]));
        observe r) [])
  = Ok (IsInstance ClsVector [1%float; infinity]).
Proof. vm_compute. split; reflexivity. Qed.

(** * Further properties of the code *)

(** ** More IEEE-754 facts *)

Lemma opp_involutive (x : float) : PrimFloat.opp (PrimFloat.opp x) = x.
Proof.
  apply Prim2SF_inj. rewrite !opp_spec.
  destruct (Prim2SF x) as [s|s| |s m e]; simpl; now rewrite ?negb_involutive.
Qed.

Lemma abs_idempotent (x : float) : PrimFloat.abs (PrimFloat.abs x) = PrimFloat.abs x.
Proof.
  apply Prim2SF_inj. rewrite !abs_spec.
  now destruct (Prim2SF x).
Qed.

Lemma abs_opp (x : float) : PrimFloat.abs (PrimFloat.opp x) = PrimFloat.abs x.
Proof.
  apply Prim2SF_inj. rewrite !abs_spec, opp_spec.
  now destruct (Prim2SF x).
Qed.

Lemma SFadd_comm (x y : spec_float) : SF64add x y = SF64add y x.
Proof.
  destruct x as [[]|[]| |sx mx ex], y as [[]|[]| |sy my ey]; try reflexivity.
  unfold SF64add, SFadd. cbv zeta.
  now rewrite (Z.min_comm ey ex), Z.add_comm.
Qed.

Lemma add_comm (x y : float) : PrimFloat.add x y = PrimFloat.add y x.
Proof. apply Prim2SF_inj. rewrite !add_spec. apply SFadd_comm. Qed.

Lemma SFmul_comm (x y : spec_float) : SF64mul x y = SF64mul y x.
Proof.
  destruct x as [[]|[]| |[] mx ex], y as [[]|[]| |[] my ey]; try reflexivity;
    unfold SF64mul, SFmul; simpl xorb;
    now rewrite (Pos.mul_comm my mx), (Z.add_comm ey ex).
Qed.

Lemma mul_comm (x y : float) : PrimFloat.mul x y = PrimFloat.mul y x.
Proof. apply Prim2SF_inj. rewrite !mul_spec. apply SFmul_comm. Qed.

(** Rounding does not look at the sign. *)
Lemma binary_round_aux_abs s m e l :
  SFabs (binary_round_aux prec emax s m e l)
  = SFabs (binary_round_aux prec emax false m e l).
Proof.
  unfold binary_round_aux.
  destruct (shr_fexp prec emax m e l) as [r1 e1].
  destruct (shr_fexp prec emax _ e1 loc_Exact) as [r2 e2].
  destruct (shr_m r2); [reflexivity| |reflexivity].
  destruct (Z.leb e2 _); reflexivity.
Qed.

Lemma binary_normalize_opp_abs (u e : Z) :
  SFabs (binary_normalize prec emax (- u) e false)
  = SFabs (binary_normalize prec emax u e false).
Proof.
  destruct u as [|p|p]; simpl; [reflexivity| |]; unfold binary_round;
    destruct (shl_align p e _) as [mz ez];
    now rewrite (binary_round_aux_abs true).
Qed.

Lemma SFsub_swap_abs (x y : spec_float) :
  SFabs (SF64sub x y) = SFabs (SF64sub y x).
Proof.
  destruct x as [[]|[]| |sx mx ex], y as [[]|[]| |sy my ey]; try reflexivity.
  unfold SF64sub, SFsub. cbv zeta. rewrite (Z.min_comm ey ex).
  set (a := cond_Zopp sx _). set (b := cond_Zopp sy _).
  replace (b - a)%Z with (- (a - b))%Z by lia.
  symmetry. apply binary_normalize_opp_abs.
Qed.

(** Under the laws of squaring, a squared difference does not depend on
    the order of its arguments. *)
Lemma sq_diff_sym `{LibmLaws} (x x2 : float) : sq_diff x x2 = sq_diff x2 x.
Proof.
  unfold sq_diff. apply float64_square_same_abs, Prim2SF_inj.
  rewrite !abs_spec, !sub_spec. apply SFsub_swap_abs.
Qed.

Lemma is_finite_spec (x : float) :
  is_finite x = true ->
  (exists s, Prim2SF x = S754_zero s) \/
  (exists s m e, Prim2SF x = S754_finite s m e).
Proof.
  unfold is_finite, is_nan, is_infinity.
  rewrite !FloatAxioms.eqb_spec, abs_spec, Prim2SF_infinity.
  destruct (Prim2SF x) as [s|s| |s m e]; simpl; try discriminate.
  - eauto.
  - destruct s; discriminate.
  - intros _. right. eauto.
Qed.

(** A finite float64 minus itself is [+0.0]. *)
Lemma sub_diag_finite (x : float) :
  is_finite x = true -> PrimFloat.sub x x = 0%float.
Proof.
  intros Hx. apply Prim2SF_inj. rewrite sub_spec, Prim2SF_zero.
  destruct (is_finite_spec x Hx) as [[s ->]|(s & m & e & ->)].
  - now destruct s.
  - unfold SF64sub, SFsub. cbv zeta. now rewrite Z.sub_diag.
Qed.

Lemma sq_diff_diag_finite `{Numpy} (x : float) :
  is_finite x = true -> sq_diff x x = 0%float.
Proof. intros Hx. unfold sq_diff. now rewrite (sub_diag_finite x Hx). Qed.

(** ** Nothing but indexed assignment mutates *)

Lemma grows_ret {A} (a : A) : grows (mret a).
Proof. intros h r h' [= _ <-]. exists []. now rewrite app_nil_r. Qed.

Lemma grows_raise {A} (e : exception) : grows (@raise A e).
Proof. intros h r h' [= _ <-]. exists []. now rewrite app_nil_r. Qed.

Lemma grows_lift {A} (r : result A) : grows (lift r).
Proof. intros h r' h' [= _ <-]. exists []. now rewrite app_nil_r. Qed.

Lemma grows_load (l : loc) : grows (load l).
Proof. intros h r h' [= _ <-]. exists []. now rewrite app_nil_r. Qed.

Lemma grows_alloc (xs : list float) : grows (alloc xs).
Proof. intros h r h' [= _ <-]. now exists [xs]. Qed.

Lemma grows_bind {A B} (m : M A) (k : A -> M B) :
  grows m -> (forall a, grows (k a)) -> grows (m ≫= k).
Proof.
  intros Hm Hk h r h'. unfold mbind, M_bind.
  destruct (m h) as [[a|e] h1] eqn:Hmh; destruct (Hm _ _ _ Hmh) as [t ->].
  - intros Hka. destruct (Hk a _ _ _ Hka) as [t' ->].
    exists (t ++ t'). now rewrite app_assoc.
  - intros [= _ <-]. now exists t.
Qed.

Lemma grows_try {A} (body handler : M A) (e : exception) :
  grows body -> grows handler -> grows (try_except body e handler).
Proof.
  intros Hb Hh h r h'. unfold try_except.
  destruct (body h) as [[a|e'] h1] eqn:Hbh; destruct (Hb _ _ _ Hbh) as [t ->].
  - intros [= _ <-]. now exists t.
  - destruct (decide (e' = e)).
    + intros Hhh. destruct (Hh _ _ _ Hhh) as [t' ->].
      exists (t ++ t'). now rewrite app_assoc.
    + intros [= _ <-]. now exists t.
Qed.

Lemma grows_new cls r nm : grows (new cls r nm).
Proof. intros h res h' Hn. eapply new_extends; eauto. Qed.

Lemma grows_to_class cls item ns : grows (to_class cls item ns).
Proof. intros h res h' Ht. eapply to_class_extends; eauto. Qed.

Ltac grows_step :=
  first
    [ apply grows_ret | apply grows_raise | apply grows_lift
    | apply grows_load | apply grows_alloc | apply grows_new
    | apply grows_to_class
    | apply grows_bind; [|intros ?]
    | apply grows_try
    | match goal with
      | |- grows (match ?x with _ => _ end) => destruct x
      | |- grows (if ?b then _ else _) => destruct b
      end ].

Ltac grows := repeat grows_step.

Lemma grows_d self : grows (d self).
Proof. unfold d. grows. Qed.

Lemma grows_get_d item : grows (get_d item).
Proof. unfold get_d. destruct item; try apply grows_raise. apply grows_d. Qed.

Lemma grows_get_coordinates item : grows (get_coordinates item).
Proof. unfold get_coordinates. grows. Qed.

Lemma grows_check_class cls item : grows (check_class cls item).
Proof. unfold check_class. grows. Qed.

Lemma grows_distance `{Numpy} self origin : grows (distance self origin).
Proof.
  unfold distance. apply grows_bind.
  - destruct origin; try apply grows_to_class.
    apply grows_bind; [apply grows_d|intros n]. grows.
  - intros o. apply grows_bind; [apply grows_get_d|intros od].
    apply grows_bind; [apply grows_d|intros sd].
    destruct (decide (od ≠ sd)); [apply grows_raise|].
    apply grows_bind; [apply grows_load|intros xs].
    apply grows_bind; [apply grows_get_coordinates|intros ys]. grows.
Qed.

Lemma grows_coordinates_if_instance cls other :
  grows (coordinates_if_instance cls other).
Proof.
  unfold coordinates_if_instance. destruct (isinstance other cls).
  - apply grows_bind; [apply grows_get_coordinates|intros ys]. grows.
  - grows.
Qed.

Lemma grows_arithmetic f self other : grows (arithmetic f self other).
Proof.
  unfold arithmetic. apply grows_bind; [apply grows_to_class|intros o].
  apply grows_bind; [apply grows_coordinates_if_instance|intros c]. grows.
Qed.

Lemma grows_ordering `{Numpy} cmp self other : grows (ordering cmp self other).
Proof.
  unfold ordering. apply grows_bind; [apply grows_to_class|intros o].
  apply grows_bind; [apply grows_check_class|intros _].
  apply grows_bind; [apply grows_distance|intros a].
  apply grows_bind; [|intros b; grows].
  unfold call_distance. destruct o as [| | | | | | |i|];
    try apply grows_raise. apply grows_distance.
Qed.

Lemma grows_eq self other : grows (__eq__ self other).
Proof.
  unfold __eq__. apply grows_bind; [apply grows_to_class|intros o].
  apply grows_bind; [apply grows_check_class|intros _].
  apply grows_bind; [apply grows_load|intros xs].
  apply grows_bind; [apply grows_get_coordinates|intros ys]. grows.
Qed.

Lemma grows_pow `{Numpy} self p m : grows (__pow__ self p m).
Proof.
  unfold __pow__. destruct m; try apply grows_arithmetic;
    (apply grows_bind; [apply grows_to_class|intros ?];
     apply grows_bind; [apply grows_coordinates_if_instance|intros ?];
     apply grows_raise).
Qed.

Lemma grows_matmul `{Numpy} self other : grows (__matmul__ self other).
Proof.
  unfold __matmul__. apply grows_bind; [apply grows_to_class|intros o].
  apply grows_bind; [apply grows_coordinates_if_instance|intros c]. grows.
Qed.

Lemma grows_method `{Numpy} op self other : grows (method op self other).
Proof.
  destruct op; unfold method;
    first [ apply grows_arithmetic | apply grows_pow | apply grows_matmul
          | apply grows_eq | apply grows_ordering ].
Qed.

Lemma grows_binary `{Numpy} op self other : grows (binary op self other).
Proof.
  unfold binary. destruct other; try apply grows_method.
  destruct (_ && _); apply grows_method.
Qed.

Lemma grows_unary f self : grows (unary f self).
Proof. unfold unary. grows. Qed.

Lemma grows_cell xs i : grows (cell xs i).
Proof. unfold cell. grows. Qed.

Lemma grows_getitem self i : grows (__getitem__ self i).
Proof. unfold __getitem__. grows. Qed.

Lemma grows_copy self ord : grows (copy self ord).
Proof. unfold copy. grows. Qed.

Lemma grows_wrap_invert cls a : grows (wrap_invert cls a).
Proof. unfold wrap_invert. grows. Qed.

Lemma grows_invert self : grows (__invert__ self).
Proof.
  unfold __invert__, get_array.
  apply grows_bind; [grows|intros a; apply grows_wrap_invert].
Qed.

Lemma grows_vector self : grows (vector self).
Proof. unfold vector. grows. Qed.

Lemma grows_from_vector v : grows (from_vector v).
Proof.
  unfold from_vector.
  apply grows_bind; [apply grows_get_coordinates|intros xs]. grows.
Qed.

Lemma grows_flip_x self : grows (flip_x self).
Proof.
  unfold flip_x. apply grows_bind; [apply grows_load|intros xs].
  apply grows_bind; [apply grows_cell|intros a].
  apply grows_bind; [apply grows_cell|intros b]. grows.
Qed.

Lemma grows_flip_y self : grows (flip_y self).
Proof.
  unfold flip_y. apply grows_bind; [apply grows_load|intros xs].
  apply grows_bind; [apply grows_cell|intros a].
  apply grows_bind; [apply grows_cell|intros b]. grows.
Qed.

(** What growing means for the instances that exist: their cells stay. *)
Lemma grows_frame {A} (m : M A) (h h' : heap) (r : result A) (o : instance) :
  grows m -> m h = (r, h') -> (coordinates o < length h)%nat ->
  buffer h' o = buffer h o /\ (length h <= length h')%nat.
Proof.
  intros Hg Hm Hl. destruct (Hg _ _ _ Hm) as [t ->]. split.
  - now apply buffer_alloc_old.
  - rewrite length_app. lia.
Qed.

(** X1. No method other than indexed assignment writes to a vector that
    exists: coercion, the class check, [distance], [copy], every unary and
    binary operator, indexed reads, deletion, and the point's [vector],
    [from_vector], [flip_x] and [flip_y] end, whether they return or raise,
    in a store that extends the one they started in, so the cells of the
    receiver, of the operand and of every other instance are as before. *)
Theorem methods_never_mutate `{Numpy} :
  (forall cls item ns, grows (to_class cls item ns)) /\
  (forall cls item, grows (check_class cls item)) /\
  (forall self origin, grows (distance self origin)) /\
  (forall self ord, grows (copy self ord)) /\
  (forall self, grows (__pos__ self) /\ grows (__neg__ self) /\
                grows (__abs__ self) /\ grows (__invert__ self)) /\
  (forall op self other, grows (binary op self other)) /\
  (forall self p m, grows (__pow__ self p m)) /\
  (forall self i key, grows (__getitem__ self i) /\
                      grows (__delitem__ self key)) /\
  (forall self, grows (vector self) /\ grows (flip_x self) /\
                grows (flip_y self)) /\
  (forall v, grows (from_vector v)) /\
  (forall A (m : M A) h r h' o,
      grows m -> m h = (r, h') -> (coordinates o < length h)%nat ->
      buffer h' o = buffer h o).
Proof.
  repeat match goal with
         | |- _ /\ _ => split
         | |- forall _, _ => intro
         end.
  - apply grows_to_class.
  - apply grows_check_class.
  - apply grows_distance.
  - apply grows_copy.
  - apply grows_unary.
  - apply grows_unary.
  - apply grows_unary.
  - apply grows_invert.
  - apply grows_binary.
  - apply grows_pow.
  - apply grows_getitem.
  - apply grows_raise.
  - apply grows_vector.
  - apply grows_flip_x.
  - apply grows_flip_y.
  - apply grows_from_vector.
  - eapply grows_frame; eauto.
Qed.

Lemma methods_never_mutate_witness :
  buffer (snd (__sub__ (Instance ClsVector 0 None)
                 (VRaw (PyTuple [PyInt 1; PyInt 1]))
                 [[3%float; 4%float]]))
    (Instance ClsVector 0 None)
  = [3%float; 4%float].
Proof.
  destruct (@methods_never_mutate example_kernels) as (_ & _ & _ & _ & _ & Hbin & _ & _ &
                                          _ & _ & Hframe).
  apply (Hframe value
           (__sub__ (Instance ClsVector 0 None)
              (VRaw (PyTuple [PyInt 1; PyInt 1])))
           [[3%float; 4%float]]
           (fst (__sub__ (Instance ClsVector 0 None)
                   (VRaw (PyTuple [PyInt 1; PyInt 1]))
                   [[3%float; 4%float]]))
           (snd (__sub__ (Instance ClsVector 0 None)
                   (VRaw (PyTuple [PyInt 1; PyInt 1]))
                   [[3%float; 4%float]]))
           (Instance ClsVector 0 None)).
  - apply (Hbin OpSub (Instance ClsVector 0 None)
             (VRaw (PyTuple [PyInt 1; PyInt 1]))).
  - reflexivity.
  - simpl. lia.
Defined.

(** ** Indexed reads and writes *)

Lemma normalize_index_lt (n : nat) (i : Z) (k : nat) :
  normalize_index n i = Ok k -> (k < n)%nat.
Proof.
  unfold normalize_index.
  destruct ((0 <=? i)%Z && (i <? Z.of_nat n)%Z) eqn:H1.
  - intros [= <-]. apply andb_true_iff in H1 as [H0 Hn]. lia.
  - destruct ((- Z.of_nat n <=? i)%Z && (i <? 0)%Z) eqn:H2; [|discriminate].
    intros [= <-]. apply andb_true_iff in H2 as [H0 Hn]. lia.
Qed.

Lemma normalize_index_out (n : nat) (i : Z) :
  (i < - Z.of_nat n \/ Z.of_nat n <= i)%Z ->
  normalize_index n i = Raise IndexError.
Proof.
  intros Hi. unfold normalize_index.
  destruct ((0 <=? i)%Z && (i <? Z.of_nat n)%Z) eqn:H1.
  { apply andb_true_iff in H1 as [H0 Hn]. lia. }
  destruct ((- Z.of_nat n <=? i)%Z && (i <? 0)%Z) eqn:H2; [|reflexivity].
  apply andb_true_iff in H2 as [H0 Hn]. lia.
Qed.

Lemma normalize_index_nonneg (n : nat) (k : Z) :
  (0 <= k < Z.of_nat n)%Z -> normalize_index n k = Ok (Z.to_nat k).
Proof.
  intros Hk. unfold normalize_index.
  now replace ((0 <=? k)%Z && (k <? Z.of_nat n)%Z) with true
    by (symmetry; apply andb_true_iff; lia).
Qed.

Lemma normalize_index_from_end (n : nat) (k : Z) :
  (0 <= k < Z.of_nat n)%Z ->
  normalize_index n (k - Z.of_nat n) = Ok (Z.to_nat k).
Proof.
  intros Hk. unfold normalize_index.
  replace ((0 <=? k - Z.of_nat n)%Z && (k - Z.of_nat n <? Z.of_nat n)%Z)
    with false by (symmetry; apply andb_false_iff; lia).
  replace ((- Z.of_nat n <=? k - Z.of_nat n)%Z && (k - Z.of_nat n <? 0)%Z)
    with true by (symmetry; apply andb_true_iff; lia).
  do 2 f_equal. lia.
Qed.

Lemma setitem_ok (self : instance) (key : Z) (v : Scalar) (h : heap)
    (i : nat) (y : float) :
  normalize_index (length (buffer h self)) key = Ok i ->
  float_of_Scalar v = Ok y ->
  __setitem__ self key v h
  = (Ok tt, <[coordinates self := <[i := y]> (buffer h self)]> h).
Proof.
  intros Hi Hy. unfold __setitem__. run. fold (buffer h self).
  now rewrite Hi, Hy.
Qed.

Lemma getitem_ok (self : instance) (key : Z) (h : heap) (i : nat) :
  normalize_index (length (buffer h self)) key = Ok i ->
  __getitem__ self key h = (Ok (VFloat (default nan (buffer h self !! i))), h).
Proof.
  intros Hi. unfold __getitem__. run. fold (buffer h self). now rewrite Hi.
Qed.

(** X2. A successful [v[key] = value] writes the float64 of [value] into
    the addressed cell of [v]'s buffer and nothing else: the other cells of
    [v] and the buffers of all other instances keep their contents, no
    buffer is allocated, and reading [v[key]] afterwards returns the value
    written. *)
Theorem setitem_then_getitem (self : instance) (key : Z) (v : Scalar)
    (h : heap) (i : nat) (y : float) :
  (coordinates self < length h)%nat ->
  normalize_index (length (buffer h self)) key = Ok i ->
  float_of_Scalar v = Ok y ->
  exists h',
    __setitem__ self key v h = (Ok tt, h') /\
    length h' = length h /\
    buffer h' self = <[i := y]> (buffer h self) /\
    buffer h' self !! i = Some y /\
    (forall j, j <> i -> buffer h' self !! j = buffer h self !! j) /\
    (forall o, coordinates o <> coordinates self ->
               buffer h' o = buffer h o) /\
    __getitem__ self key h' = (Ok (VFloat y), h').
Proof.
  intros Hl Hi Hy. pose proof (normalize_index_lt _ _ _ Hi) as Hlt.
  eexists. split; [apply (setitem_ok _ _ _ _ _ _ Hi Hy)|].
  set (h' := <[coordinates self := _]> h).
  assert (Hb : buffer h' self = <[i := y]> (buffer h self)).
  { unfold buffer at 1. subst h'. now rewrite list_lookup_insert_eq. }
  split; [apply length_insert|]. split; [exact Hb|].
  split; [rewrite Hb; now apply list_lookup_insert_eq|].
  split; [intros j Hj; rewrite Hb; now apply list_lookup_insert_ne|].
  split.
  - intros o Ho. unfold buffer. subst h'.
    now rewrite list_lookup_insert_ne by auto.
  - rewrite (getitem_ok self key h' i).
    + rewrite Hb, list_lookup_insert_eq by exact Hlt. reflexivity.
    + rewrite Hb, length_insert. exact Hi.
Qed.

Lemma setitem_then_getitem_witness :
  exists h',
    __setitem__ (Instance ClsPoint 0 None) (-1) (PyInt 7)
      [[1%float; 2%float]; [5%float]]
    = (Ok tt, h') /\
    buffer h' (Instance ClsPoint 0 None) = [1%float; 7%float] /\
    buffer h' (Instance ClsVector 1 None) = [5%float] /\
    __getitem__ (Instance ClsPoint 0 None) (-1) h' = (Ok (VFloat 7), h').
Proof.
  destruct (setitem_then_getitem (Instance ClsPoint 0 None) (-1) (PyInt 7)
              [[1%float; 2%float]; [5%float]] 1 7%float)
    as (h' & Hset & _ & Hb & _ & _ & Hother & Hget).
  - simpl. lia.
  - reflexivity.
  - reflexivity.
  - exists h'. split; [exact Hset|]. split; [exact Hb|].
    split; [|exact Hget].
    apply (Hother (Instance ClsVector 1 None)). simpl. lia.
Defined.

(** X3. Index bounds: a key outside [-d, d) makes both [v[key]] and
    [v[key] = value] raise [IndexError] (so every key does on an empty
    vector), a value too large for a float makes the assignment raise
    [OverflowError], and an assignment that raises leaves the store exactly
    as it was. *)
Theorem index_errors_change_nothing (self : instance) (h : heap) :
  (forall key,
      (key < - Z.of_nat (length (buffer h self)) \/
       Z.of_nat (length (buffer h self)) <= key)%Z ->
      __getitem__ self key h = (Raise IndexError, h) /\
      forall v, __setitem__ self key v h = (Raise IndexError, h)) /\
  (forall key i z,
      normalize_index (length (buffer h self)) key = Ok i ->
      float_of_int z = Raise OverflowError ->
      __setitem__ self key (PyInt z) h = (Raise OverflowError, h)) /\
  (forall key v e h',
      __setitem__ self key v h = (Raise e, h') -> h' = h).
Proof.
  split; [|split].
  - intros key Hk. apply normalize_index_out in Hk.
    unfold __getitem__, __setitem__. run. fold (buffer h self).
    rewrite Hk. split; reflexivity.
  - intros key i z Hi Hz. unfold __setitem__. run. fold (buffer h self).
    now rewrite Hi, Hz.
  - intros key v e h'. unfold __setitem__. run.
    destruct (normalize_index _ key); [|now intros [= _ <-]].
    destruct (float_of_Scalar v); [discriminate|now intros [= _ <-]].
Qed.

Lemma index_errors_change_nothing_witness :
  __getitem__ (Instance ClsVector 0 None) 2 [[1%float; 2%float]]
  = (Raise IndexError, [[1%float; 2%float]]) /\
  __setitem__ (Instance ClsVector 0 None) (-3) (PyInt 0) [[1%float; 2%float]]
  = (Raise IndexError, [[1%float; 2%float]]) /\
  __setitem__ (Instance ClsVector 0 None) 0 (PyInt (2 ^ 1024))
    [[1%float; 2%float]]
  = (Raise OverflowError, [[1%float; 2%float]]).
Proof.
  destruct (index_errors_change_nothing (Instance ClsVector 0 None)
              [[1%float; 2%float]]) as (Hout & Hover & _).
  split; [|split].
  - apply (Hout 2%Z). right. simpl. lia.
  - apply (Hout (-3)%Z). left. simpl. lia.
  - apply (Hover 0%Z 0%nat (2 ^ 1024)%Z); reflexivity.
Defined.

(** X4. Indexed assignment never changes a dimensionality: whatever the
    key and value, and whether it succeeds or raises, the store has as many
    buffers as before and every buffer has as many cells, so every
    well-formed instance (a point with two cells included) stays so. *)
Theorem setitem_keeps_dimensions (self o : instance) (key : Z) (v : Scalar)
    (h h' : heap) (r : result unit) :
  __setitem__ self key v h = (r, h') ->
  length h' = length h /\
  length (buffer h' o) = length (buffer h o) /\
  (wf h o -> wf h' o).
Proof.
  intros Hs.
  assert (Hh : h' = h \/
               exists i y, h' = <[coordinates self := <[i := y]> (buffer h self)]> h).
  { revert Hs. unfold __setitem__. run. fold (buffer h self).
    destruct (normalize_index _ key) as [i|]; [|intros [= _ <-]; now left].
    destruct (float_of_Scalar v) as [y|]; [|intros [= _ <-]; now left].
    intros [= _ <-]. right. eauto. }
  assert (Hlen : length h' = length h /\
                 length (buffer h' o) = length (buffer h o)).
  { destruct Hh as [->|(i & y & ->)]; [auto|].
    split; [apply length_insert|]. unfold buffer.
    destruct (decide (coordinates o = coordinates self)) as [->|Hne].
    - destruct (decide (coordinates self < length h)%nat) as [Hl|Hl].
      + rewrite list_lookup_insert_eq by exact Hl. simpl.
        now rewrite length_insert.
      + now rewrite list_insert_ge by lia.
    - now rewrite list_lookup_insert_ne by auto. }
  destruct Hlen as [Hl1 Hl2]. repeat split; auto.
  - destruct H as [Hl _]. lia.
  - destruct H as [_ Hp]. intros Hc. rewrite Hl2. auto.
Qed.

Lemma setitem_keeps_dimensions_witness :
  length (buffer (snd (__setitem__ (Instance ClsPoint 0 None) 1 (PyFloat 9)
                         [[1%float; 2%float]]))
            (Instance ClsPoint 0 None))
  = 2%nat.
Proof.
  destruct (setitem_keeps_dimensions (Instance ClsPoint 0 None)
              (Instance ClsPoint 0 None) 1 (PyFloat 9) [[1%float; 2%float]]
              (snd (__setitem__ (Instance ClsPoint 0 None) 1 (PyFloat 9)
                      [[1%float; 2%float]]))
              (fst (__setitem__ (Instance ClsPoint 0 None) 1 (PyFloat 9)
                      [[1%float; 2%float]])))
    as (_ & Hlen & _); [reflexivity|exact Hlen].
Defined.

(** X5. Negative keys count from the end: for [0 <= k < d] the keys [k]
    and [k - d] address the same cell, for reading and for writing. *)
Theorem negative_index_same_cell (self : instance) (k : Z) (h : heap) :
  (0 <= k < Z.of_nat (length (buffer h self)))%Z ->
  __getitem__ self (k - Z.of_nat (length (buffer h self))) h
  = __getitem__ self k h /\
  forall v,
    __setitem__ self (k - Z.of_nat (length (buffer h self))) v h
    = __setitem__ self k v h.
Proof.
  intros Hk. unfold __getitem__, __setitem__. run. fold (buffer h self).
  rewrite (normalize_index_from_end _ _ Hk), (normalize_index_nonneg _ _ Hk).
  split; reflexivity.
Qed.

Lemma negative_index_same_cell_witness :
  __getitem__ (Instance ClsVector 0 None) (-1)
    [[1%float; 2%float; 3%float]]
  = __getitem__ (Instance ClsVector 0 None) 2 [[1%float; 2%float; 3%float]].
Proof.
  apply (negative_index_same_cell (Instance ClsVector 0 None) 2
           [[1%float; 2%float; 3%float]]).
  simpl. lia.
Defined.

(** ** Observing results *)

Lemma observe_instance (o : instance) (h : heap) :
  observe (VInstance o) h = (Ok (IsInstance (__class__ o) (buffer h o)), h).
Proof. reflexivity. Qed.

(** ** Unary operators *)

Lemma unary_spec (f : float -> float) (self : instance) (h : heap) :
  wf h self ->
  unary f self h
  = (Ok (VInstance (Instance (__class__ self) (length h) None)),
     h ++ [map f (buffer h self)]).
Proof.
  intros [Hl Hp]. unfold unary. run. fold (buffer h self).
  rewrite (new_ok _ _ None h (map f (buffer h self)));
    [reflexivity|reflexivity|].
  simpl. rewrite length_map. exact Hp.
Qed.

Lemma unary_wf (f : float -> float) (self : instance) (h : heap) :
  wf h self ->
  wf (h ++ [map f (buffer h self)])
     (Instance (__class__ self) (length h) None).
Proof.
  intros [Hl Hp]. split.
  - simpl. rewrite length_app. simpl. lia.
  - simpl. intros Hc. rewrite buffer_alloc_new, length_map. auto.
Qed.

Lemma unary_observed (f : float -> float) (self : instance) (h : heap) :
  wf h self ->
  (r ← unary f self; observe r) h
  = (Ok (IsInstance (__class__ self) (map f (buffer h self))),
     h ++ [map f (buffer h self)]).
Proof.
  intros Hwf. rewrite (bind_ok _ _ _ _ _ (unary_spec f self h Hwf)).
  now rewrite observe_instance, buffer_alloc_new.
Qed.

Lemma unary_twice_observed (f g : float -> float) (self : instance)
    (h : heap) :
  wf h self ->
  fst ((r ← unary f self; r' ← call (unary g) r; observe r') h)
  = Ok (IsInstance (__class__ self) (map g (map f (buffer h self)))).
Proof.
  intros Hwf. rewrite (bind_ok _ _ _ _ _ (unary_spec f self h Hwf)).
  unfold call.
  pose proof (unary_wf f self h Hwf) as Hwf1.
  rewrite (bind_ok _ _ _ _ _ (unary_spec g _ _ Hwf1)).
  rewrite observe_instance. cbn [fst __class__].
  now rewrite !buffer_alloc_new.
Qed.

(** X6. [+v], [-v] and [abs(v)] return a new unnamed instance of [v]'s
    class over a fresh buffer holding [v]'s cells, their negations, resp.
    their absolute values; negating twice gives back [v]'s cells exactly,
    [abs] is idempotent, and [abs(-v)] has the cells of [abs(v)]. *)
Theorem unary_operators (self : instance) (h : heap) :
  wf h self ->
  let xs := buffer h self in
  let fresh := VInstance (Instance (__class__ self) (length h) None) in
  __pos__ self h = (Ok fresh, h ++ [xs]) /\
  __neg__ self h = (Ok fresh, h ++ [map PrimFloat.opp xs]) /\
  __abs__ self h = (Ok fresh, h ++ [map PrimFloat.abs xs]) /\
  fst ((r ← __neg__ self; r' ← call __neg__ r; observe r') h)
  = Ok (IsInstance (__class__ self) xs) /\
  fst ((r ← __abs__ self; r' ← call __abs__ r; observe r') h)
  = fst ((r ← __abs__ self; observe r) h) /\
  fst ((r ← __neg__ self; r' ← call __abs__ r; observe r') h)
  = fst ((r ← __abs__ self; observe r) h).
Proof.
  intros Hwf xs fresh. unfold __pos__, __neg__, __abs__.
  rewrite !(unary_twice_observed _ _ _ _ Hwf), !(unary_observed _ _ _ Hwf).
  rewrite !(unary_spec _ _ _ Hwf). fold xs. cbn [fst].
  rewrite map_id. repeat split.
  - f_equal. f_equal. rewrite map_map. rewrite <- (map_id xs) at 2.
    apply map_ext. intros x. apply opp_involutive.
  - f_equal. f_equal. rewrite map_map.
    apply map_ext. intros x. apply abs_idempotent.
  - f_equal. f_equal. rewrite map_map.
    apply map_ext. intros x. apply abs_opp.
Qed.

Lemma unary_operators_witness :
  __neg__ (Instance ClsPoint 0 (Some "p"%string)) [[1%float; (-2)%float]]
  = (Ok (VInstance (Instance ClsPoint 1 None)),
     [[1%float; (-2)%float]; [(-1)%float; 2%float]]).
Proof.
  destruct (unary_operators (Instance ClsPoint 0 (Some "p"%string))
              [[1%float; (-2)%float]]) as (_ & Hneg & _).
  - split; [simpl; lia|intros _; reflexivity].
  - exact Hneg.
Defined.

(** ** Operands that are not vectors *)

Lemma to_class_plain cls (item : value) (h : heap) :
  is_plain item = true -> to_class cls item false h = (Ok item, h).
Proof. destruct item; try discriminate; reflexivity. Qed.

Lemma isinstance_plain cls (item : value) :
  is_plain item = true -> isinstance item cls = false.
Proof. destruct item; try discriminate; reflexivity. Qed.

Lemma to_class_str_or_dict cls (item : value) ns (h : heap) :
  is_str_or_dict item = true -> to_class cls item ns h = (Raise TypeError, h).
Proof. destruct item; try discriminate; reflexivity. Qed.

(** X7. Comparing a vector with something that is not vector-like does
    not answer [False]: with [None], a [bool], an [int] or a [float] as
    right operand (let through by coercion, stopped by the class check), or
    a [str] or [dict] (stopped by coercion), each of [== < > <= >=] raises
    [TypeError] and allocates nothing. *)
Theorem comparison_rejects_non_vectors `{Numpy} (op : operator)
    (self : instance) (item : value) (h : heap) :
  is_comparison op = true ->
  is_plain item = true \/ is_str_or_dict item = true ->
  binary op self item h = (Raise TypeError, h).
Proof.
  intros Hop Hitem.
  assert (Hchk : (other ← to_class (__class__ self) item false;
                  check_class (__class__ self) other) h
                 = (Raise TypeError, h)).
  { destruct Hitem as [Hp|Hs].
    - rewrite (bind_ok _ _ _ _ _ (to_class_plain _ _ h Hp)).
      unfold check_class. now rewrite (isinstance_plain _ _ Hp).
    - now rewrite (bind_raise _ _ _ _ _
                     (to_class_str_or_dict _ _ false h Hs)). }
  assert (Hm : binary op self item = method op self item).
  { destruct item, Hitem; try discriminate; reflexivity. }
  rewrite Hm.
  destruct op; try discriminate Hop;
    unfold method, __eq__, __lt__, __gt__, __le__, __ge__, ordering;
    apply (bind_raise_inner _ _ _ _ _ _ Hchk).
Qed.

Lemma comparison_rejects_non_vectors_witness :
  __eq__ (Instance ClsVector 0 None) (VInt 3) [[3%float]]
  = (Raise TypeError, [[3%float]]) /\
  @__lt__ example_kernels (Instance ClsVector 0 None) (VStr "3") [[3%float]]
  = (Raise TypeError, [[3%float]]).
Proof.
  split.
  - apply (@comparison_rejects_non_vectors example_kernels OpEq
             (Instance ClsVector 0 None) (VInt 3) [[3%float]]);
      [reflexivity|now left].
  - apply (@comparison_rejects_non_vectors example_kernels OpLt
             (Instance ClsVector 0 None) (VStr "3") [[3%float]]);
      [reflexivity|now right].
Defined.

(** X8. [distance] with an origin that is not vector-like: a number or
    [bool] passes coercion and then has no [d] attribute, so the call
    raises [AttributeError]; a [str] or [dict] raises [TypeError] in
    coercion. Neither allocates. *)
Theorem distance_rejects_non_vectors `{Numpy} (self : instance)
    (item : value) (h : heap) :
  (is_plain item = true -> item <> VNone ->
   distance self item h = (Raise AttributeError, h)) /\
  (is_str_or_dict item = true ->
   distance self item h = (Raise TypeError, h)).
Proof.
  split.
  - intros Hp Hn. rewrite (distance_explicit _ _ _ Hn).
    rewrite (bind_ok _ _ _ _ _ (to_class_plain _ _ h Hp)).
    destruct item; try discriminate Hp; try congruence; reflexivity.
  - intros Hs. assert (Hn : item <> VNone) by (intros ->; discriminate).
    rewrite (distance_explicit _ _ _ Hn).
    now rewrite (bind_raise _ _ _ _ _ (to_class_str_or_dict _ _ false h Hs)).
Qed.

Lemma distance_rejects_non_vectors_witness :
  @distance example_kernels (Instance ClsVector 0 None) (VFloat 0) [[3%float]]
  = (Raise AttributeError, [[3%float]]) /\
  @distance example_kernels (Instance ClsVector 0 None) VDict [[3%float]]
  = (Raise TypeError, [[3%float]]).
Proof.
  split.
  - apply (@distance_rejects_non_vectors example_kernels
             (Instance ClsVector 0 None) (VFloat 0) [[3%float]]);
      [reflexivity|discriminate].
  - apply (@distance_rejects_non_vectors example_kernels
             (Instance ClsVector 0 None) VDict [[3%float]]). reflexivity.
Defined.

(** ** Raw operands of the wrong length on a point *)

Lemma to_class_point_wrong_length (r : Vector_raw) ns (h : heap) :
  len r <> 2%nat ->
  to_class ClsPoint (VRaw r) ns h = (Raise ValueError, h).
Proof.
  intros Hl. unfold to_class.
  now rewrite (bind_raise _ _ _ _ _ (new_point_wrong_length r None h Hl)).
Qed.

(** X9. A point coerces raw operands through its own constructor, so a
    tuple, list or array that does not have exactly two elements makes
    every binary operator and [distance] raise [ValueError] before numpy is
    consulted (a one-element sequence is not stretched), and nothing is
    allocated. *)
Theorem point_rejects_wrong_length `{Numpy} (self : instance)
    (r : Vector_raw) (h : heap) :
  __class__ self = ClsPoint ->
  len r <> 2%nat ->
  (forall op, binary op self (VRaw r) h = (Raise ValueError, h)) /\
  distance self (VRaw r) h = (Raise ValueError, h).
Proof.
  intros Hc Hl.
  pose proof (to_class_point_wrong_length r false h Hl) as Hto.
  rewrite <- Hc in Hto. split.
  - intros op.
    destruct op; unfold binary, method, __add__, __sub__, __mul__,
      __truediv__, __floordiv__, __mod__, __pow__, __matmul__, __eq__,
      __lt__, __gt__, __le__, __ge__, arithmetic, ordering;
      apply (bind_raise _ _ _ _ _ Hto).
  - rewrite distance_explicit by discriminate.
    apply (bind_raise _ _ _ _ _ Hto).
Qed.

Lemma point_rejects_wrong_length_witness :
  __add__ (Instance ClsPoint 0 None) (VRaw (PyTuple [PyInt 1]))
    [[1%float; 2%float]]
  = (Raise ValueError, [[1%float; 2%float]]).
Proof.
  destruct (@point_rejects_wrong_length example_kernels
              (Instance ClsPoint 0 None) (PyTuple [PyInt 1])
              [[1%float; 2%float]]) as [Hbin _].
  - reflexivity.
  - simpl. lia.
  - apply (Hbin OpAdd).
Defined.

(** ** Distance between two instances *)

Lemma to_class_instance cls (b : instance) (h : heap) :
  (coordinates b < length h)%nat ->
  exists o t,
    to_class cls (VInstance b) false h = (Ok (VInstance o), h ++ t) /\
    buffer (h ++ t) o = buffer h b.
Proof.
  intros Hl. unfold to_class, try_except, call_vector.
  destruct (__class__ b).
  - exists b, []. now rewrite app_nil_r.
  - rewrite vector_ok. eexists _, [_]. split; [reflexivity|].
    apply buffer_alloc_new.
Qed.

Lemma distance_after_coercion `{Numpy} (self : instance) (origin : value)
    (h t : heap) (o : instance) :
  (coordinates self < length h)%nat ->
  to_class (__class__ self) origin false h = (Ok (VInstance o), h ++ t) ->
  distance self origin h
  = (if decide (length (buffer (h ++ t) o) ≠ length (buffer h self))
     then Raise ValueError
     else math_sqrt (sum (zip_with sq_diff (buffer h self)
                            (buffer (h ++ t) o))),
     h ++ t).
Proof.
  intros Hl Hto.
  assert (Hnone : origin <> VNone).
  { intros ->. discriminate Hto. }
  rewrite (distance_explicit _ _ _ Hnone).
  rewrite (bind_ok _ _ _ _ _ Hto).
  unfold get_d, get_coordinates, d. run.
  fold (buffer (h ++ t) o).
  rewrite !(lookup_app_l h _ (coordinates self)) by exact Hl.
  fold (buffer h self).
  destruct (decide (length (buffer (h ++ t) o) ≠ length (buffer h self)));
    [reflexivity|].
  rewrite !(lookup_app_l h _ (coordinates self)) by exact Hl.
  reflexivity.
Qed.

Lemma distance_instances `{Numpy} (a b : instance) (h : heap) :
  (coordinates a < length h)%nat ->
  (coordinates b < length h)%nat ->
  fst (distance a (VInstance b) h)
  = if decide (length (buffer h b) ≠ length (buffer h a))
    then Raise ValueError
    else math_sqrt (sum (zip_with sq_diff (buffer h a) (buffer h b))).
Proof.
  intros Ha Hb.
  destruct (to_class_instance (__class__ a) b h Hb) as (o & t & Hto & Ho).
  rewrite (distance_after_coercion a _ h t o Ha Hto), Ho. reflexivity.
Qed.

Lemma zip_with_sq_diff_sym `{LibmLaws} (xs ys : list float) :
  zip_with sq_diff xs ys = zip_with sq_diff ys xs.
Proof.
  revert ys. induction xs as [|x xs IH]; intros [|y ys]; simpl; try reflexivity.
  now rewrite sq_diff_sym, IH.
Qed.

(** X10. Given a C library whose [pow] keeps the laws of squaring, distance
    is symmetric, exactly: for any two allocated instances, of either class,
    [a.distance(b)] and [b.distance(a)] return the same float64, or both
    raise [ValueError] when the lengths differ. *)
Theorem distance_symmetric `{Numpy} `{!LibmLaws} (a b : instance)
    (h : heap) :
  (coordinates a < length h)%nat ->
  (coordinates b < length h)%nat ->
  fst (distance a (VInstance b) h) = fst (distance b (VInstance a) h).
Proof.
  intros Ha Hb. rewrite !distance_instances by assumption.
  rewrite zip_with_sq_diff_sym.
  destruct (decide (length (buffer h b) ≠ length (buffer h a))),
    (decide (length (buffer h a) ≠ length (buffer h b)));
    try reflexivity; exfalso; lia.
Qed.

Lemma distance_symmetric_witness :
  fst (@distance example_kernels (Instance ClsPoint 0 None)
         (VInstance (Instance ClsVector 1 None))
         [[1%float; 2%float]; [4%float; 6%float]])
  = fst (@distance example_kernels (Instance ClsVector 1 None)
           (VInstance (Instance ClsPoint 0 None))
           [[1%float; 2%float]; [4%float; 6%float]]).
Proof.
  apply (@distance_symmetric example_kernels example_kernels_laws
           (Instance ClsPoint 0 None) (Instance ClsVector 1 None)
           [[1%float; 2%float]; [4%float; 6%float]]); simpl; lia.
Defined.

Lemma zip_with_sq_diff_diag `{Numpy} (xs : list float) :
  finite_cells xs = true ->
  zip_with sq_diff xs xs = replicate (length xs) 0%float.
Proof.
  unfold finite_cells. induction xs as [|x xs IH]; simpl; [reflexivity|].
  rewrite andb_true_iff. intros [Hx Hxs].
  now rewrite (sq_diff_diag_finite x Hx), IH.
Qed.

Lemma sum_zeros (n : nat) : sum (replicate n 0%float) = 0%float.
Proof.
  unfold sum. induction n as [|n IH]; simpl; [reflexivity|].
  exact IH.
Qed.

(** X11. The distance from a vector to itself is exactly [0.0] when all
    its cells are finite numbers. *)
Theorem distance_to_itself `{Numpy} (v : instance) (h : heap) :
  (coordinates v < length h)%nat ->
  finite_cells (buffer h v) = true ->
  fst (distance v (VInstance v) h) = Ok 0%float.
Proof.
  intros Hl Hfin. rewrite distance_instances by assumption.
  rewrite decide_False by (intros Hn; now apply Hn).
  now rewrite (zip_with_sq_diff_diag _ Hfin), sum_zeros.
Qed.

Lemma distance_to_itself_witness :
  fst (@distance example_kernels (Instance ClsVector 0 None)
         (VInstance (Instance ClsVector 0 None))
         [[1.5%float; (-2)%float; 0%float]])
  = Ok 0%float.
Proof.
  apply (@distance_to_itself example_kernels (Instance ClsVector 0 None)
           [[1.5%float; (-2)%float; 0%float]]); [simpl; lia|reflexivity].
Defined.

(** ** Copy and equality *)

Lemma copy_ok (self : instance) (ord : order) (h : heap) :
  wf h self ->
  copy self ord h
  = (Ok (VInstance (Instance (__class__ self) (length h) None)),
     h ++ [buffer h self]).
Proof.
  intros [Hl Hp]. unfold copy, ndarray_copy. run. fold (buffer h self).
  rewrite (new_ok _ _ None h (buffer h self)); [reflexivity|reflexivity|].
  simpl. auto.
Qed.

(** X12. On a base vector without NaN cells a copy compares equal to its
    original, in both directions: [v == v.copy()] and [v.copy() == v] are
    [True]. *)
Theorem copy_equals_original (self : instance) (ord : order) (h : heap) :
  __class__ self = ClsVector ->
  wf h self ->
  nan_free (buffer h self) = true ->
  fst ((c ← copy self ord; __eq__ self c) h) = Ok (VBool true) /\
  fst ((c ← copy self ord;
        call (fun o => __eq__ o (VInstance self)) c) h) = Ok (VBool true).
Proof.
  intros Hc Hwf Hnan. pose proof Hwf as [Hl _].
  rewrite !(bind_ok _ _ _ _ _ (copy_ok self ord h Hwf)). rewrite Hc.
  set (c := Instance ClsVector (length h) None).
  set (h1 := h ++ [buffer h self]).
  assert (Hwc : wf h1 c).
  { split; [|discriminate]. subst h1. simpl. rewrite length_app. simpl. lia. }
  assert (Hbc : buffer h1 c = buffer h self) by apply buffer_alloc_new.
  assert (Hbs : buffer h1 self = buffer h self) by now apply buffer_alloc_old.
  assert (Hws : wf h1 self) by now apply wf_alloc.
  split.
  - destruct (eq_spec self (VInstance c) h1 (buffer h self) Hws) as [t Ht].
    + rewrite Hc. simpl. rewrite decide_True by apply Hwc. now rewrite Hbc.
    + rewrite Ht, Hbs, all_eq_same_length by reflexivity.
      now rewrite forallb_zip_eqb_refl.
  - unfold call.
    destruct (eq_spec c (VInstance self) h1 (buffer h self) Hwc) as [t Ht].
    + simpl. rewrite decide_True by apply Hws. now rewrite Hbs.
    + rewrite Ht, Hbc, all_eq_same_length by reflexivity.
      now rewrite forallb_zip_eqb_refl.
Qed.

Lemma copy_equals_original_witness :
  fst ((c ← copy (Instance ClsVector 0 (Some "v"%string)) K;
        __eq__ (Instance ClsVector 0 (Some "v"%string)) c)
         [[1%float; infinity]])
  = Ok (VBool true).
Proof.
  apply (copy_equals_original (Instance ClsVector 0 (Some "v"%string)) K
           [[1%float; infinity]]).
  - reflexivity.
  - split; [simpl; lia|discriminate].
  - reflexivity.
Defined.

(** ** Shapes in elementwise arithmetic *)

Lemma arithmetic_broadcast_error (f : float -> float -> float)
    (self : instance) (other : value) (h : heap) (ys : list float) e :
  wf h self ->
  operand_cells h (__class__ self) other = Some (Cells ys) ->
  broadcast f (buffer h self) ys = Raise e ->
  exists t, arithmetic f self other h = (Raise e, h ++ t).
Proof.
  intros [Hl Hp] Hc Hz.
  destruct (to_class_cells _ _ _ _ Hc) as (o & t & Hto & Hi & Hwo & Hb).
  exists t. unfold arithmetic. rewrite (bind_ok _ _ _ _ _ Hto).
  unfold coordinates_if_instance. rewrite Hi.
  unfold get_coordinates. run. fold (buffer (h ++ t) o). rewrite Hb.
  rewrite (lookup_app_l h _ (coordinates self)) by exact Hl.
  fold (buffer h self). unfold ufunc. now rewrite Hz.
Qed.

(** What a caller observes of an elementwise operator on a sequence-like
    operand: the receiver's class and the broadcast cells, or numpy's
    broadcasting error. *)
Lemma arithmetic_observed (f : float -> float -> float) (self : instance)
    (other : value) (h : heap) (ys : list float) :
  wf h self ->
  operand_cells h (__class__ self) other = Some (Cells ys) ->
  fst ((r ← arithmetic f self other; observe r) h)
  = match broadcast f (buffer h self) ys with
    | Ok zs => Ok (IsInstance (__class__ self) zs)
    | Raise e => Raise e
    end.
Proof.
  intros Hwf Hc. destruct (broadcast f (buffer h self) ys) as [zs|e] eqn:Hz.
  - destruct (arithmetic_spec f self other h (Cells ys) zs Hwf Hc Hz)
      as [t Ht].
    rewrite (bind_ok _ _ _ _ _ Ht), observe_instance. cbn [fst __class__].
    now rewrite buffer_alloc_new.
  - destruct (arithmetic_broadcast_error f self other h ys e Hwf Hc Hz)
      as [t Ht].
    now rewrite (bind_raise _ _ _ _ _ Ht).
Qed.

Lemma broadcast_mismatch {A} (f : float -> float -> A) (xs ys : list float) :
  length xs <> length ys -> length xs <> 1%nat -> length ys <> 1%nat ->
  broadcast f xs ys = Raise ValueError.
Proof.
  intros Hne Hx Hy. unfold broadcast. rewrite decide_False by exact Hne.
  destruct xs as [|x [|x' xs]], ys as [|y [|y' ys]]; simpl in *;
    try reflexivity; congruence.
Qed.

Lemma broadcast_stretch_left {A} (f : float -> float -> A) x (ys : list float) :
  broadcast f [x] ys = Ok (map (f x) ys).
Proof.
  unfold broadcast. destruct (decide (length [x] = length ys)) as [Hl|Hl].
  - destruct ys as [|y [|y' ys]]; try discriminate Hl. reflexivity.
  - reflexivity.
Qed.

(** X13. Shapes under the elementwise operators [+ - * / // % **]: two
    sequence-like operands whose lengths differ, neither being one, make
    the operator raise [ValueError]; and a one-cell receiver is stretched
    over a longer operand, so the result, still of the receiver's class,
    has the operand's dimensionality, not the receiver's. *)
Theorem arithmetic_shapes `{Numpy} (op : operator)
    (f : float -> float -> float) (self : instance) (other : value)
    (h : heap) (ys : list float) :
  kernel op = Some f ->
  wf h self ->
  operand_cells h (__class__ self) other = Some (Cells ys) ->
  (length (buffer h self) <> length ys ->
   length (buffer h self) <> 1%nat -> length ys <> 1%nat ->
   fst (binary op self other h) = Raise ValueError) /\
  (forall x, buffer h self = [x] ->
   fst ((r ← binary op self other; observe r) h)
   = Ok (IsInstance (__class__ self) (map (f x) ys))).
Proof.
  intros Hk Hwf Hc. rewrite (binary_arithmetic _ _ _ _ Hk). split.
  - intros Hne Hx Hy.
    destruct (arithmetic_broadcast_error f self other h ys ValueError Hwf Hc)
      as [t Ht]; [now apply broadcast_mismatch|].
    now rewrite Ht.
  - intros x Hx. rewrite (arithmetic_observed f _ _ _ _ Hwf Hc), Hx.
    now rewrite broadcast_stretch_left.
Qed.

Lemma arithmetic_shapes_witness :
  fst (__add__ (Instance ClsVector 0 None)
         (VRaw (PyTuple [PyInt 1; PyInt 2; PyInt 3])) [[1%float; 2%float]])
  = Raise ValueError /\
  fst ((r ← __mul__ (Instance ClsVector 0 None)
              (VRaw (PyTuple [PyInt 1; PyInt 2; PyInt 3]));
        observe r) [[2%float]])
  = Ok (IsInstance ClsVector [2%float; 4%float; 6%float]).
Proof.
  split.
  - destruct (@arithmetic_shapes example_kernels OpAdd PrimFloat.add
                (Instance ClsVector 0 None)
                (VRaw (PyTuple [PyInt 1; PyInt 2; PyInt 3]))
                [[1%float; 2%float]] [1%float; 2%float; 3%float])
      as [Hmis _].
    + reflexivity.
    + split; [simpl; lia|discriminate].
    + reflexivity.
    + apply Hmis; simpl; lia.
  - destruct (@arithmetic_shapes example_kernels OpMul PrimFloat.mul
                (Instance ClsVector 0 None)
                (VRaw (PyTuple [PyInt 1; PyInt 2; PyInt 3]))
                [[2%float]] [1%float; 2%float; 3%float])
      as [_ Hone].
    + reflexivity.
    + split; [simpl; lia|discriminate].
    + reflexivity.
    + apply (Hone 2%float). reflexivity.
Defined.

(** ** Commutativity *)

Lemma broadcast_comm {A} (f : float -> float -> A) (xs ys : list float) :
  (forall x y, f x y = f y x) ->
  broadcast f xs ys = broadcast f ys xs.
Proof.
  intros Hf. unfold broadcast.
  destruct (decide (length xs = length ys)) as [Hl|Hl].
  - rewrite decide_True by auto. f_equal.
    clear Hl. revert ys. induction xs as [|x xs IH]; intros [|y ys]; simpl;
      try reflexivity. now rewrite Hf, IH.
  - rewrite decide_False by auto.
    destruct xs as [|x [|x' xs]], ys as [|y [|y' ys]]; simpl in *;
      try reflexivity; try congruence; f_equal.
    + f_equal; [apply Hf|f_equal; [apply Hf|]].
      apply map_ext. intros a. apply Hf.
    + f_equal; [apply Hf|f_equal; [apply Hf|]].
      apply map_ext. intros a. symmetry. apply Hf.
Qed.

Lemma operand_cells_vector (h : heap) (b : instance) :
  (coordinates b < length h)%nat ->
  operand_cells h ClsVector (VInstance b) = Some (Cells (buffer h b)).
Proof. intros Hl. simpl. now rewrite decide_True by exact Hl. Qed.

(** X14. Addition and multiplication of two base vectors commute exactly:
    [a + b] and [b + a] (and [a * b], [b * a]) have the same class and the
    same float64 cells, or both raise the same broadcasting error. *)
Theorem add_mul_commute (a b : instance) (h : heap) :
  __class__ a = ClsVector ->
  __class__ b = ClsVector ->
  wf h a ->
  wf h b ->
  fst ((r ← __add__ a (VInstance b); observe r) h)
  = fst ((r ← __add__ b (VInstance a); observe r) h) /\
  fst ((r ← __mul__ a (VInstance b); observe r) h)
  = fst ((r ← __mul__ b (VInstance a); observe r) h).
Proof.
  intros Ha Hb Hwa Hwb. unfold __add__, __mul__.
  assert (Hca : operand_cells h (__class__ b) (VInstance a)
                = Some (Cells (buffer h a))).
  { rewrite Hb. apply operand_cells_vector, Hwa. }
  assert (Hcb : operand_cells h (__class__ a) (VInstance b)
                = Some (Cells (buffer h b))).
  { rewrite Ha. apply operand_cells_vector, Hwb. }
  rewrite !(arithmetic_observed _ a _ _ _ Hwa Hcb).
  rewrite !(arithmetic_observed _ b _ _ _ Hwb Hca).
  rewrite Ha, Hb.
  rewrite (broadcast_comm PrimFloat.add (buffer h a)) by apply add_comm.
  rewrite (broadcast_comm PrimFloat.mul (buffer h a)) by apply mul_comm.
  split; reflexivity.
Qed.

Lemma add_mul_commute_witness :
  fst ((r ← __add__ (Instance ClsVector 0 None)
              (VInstance (Instance ClsVector 1 None));
        observe r) [[1%float; 2%float]; [0.5%float; 0.25%float]])
  = fst ((r ← __add__ (Instance ClsVector 1 None)
                (VInstance (Instance ClsVector 0 None));
          observe r) [[1%float; 2%float]; [0.5%float; 0.25%float]]).
Proof.
  apply (add_mul_commute (Instance ClsVector 0 None)
           (Instance ClsVector 1 None)
           [[1%float; 2%float]; [0.5%float; 0.25%float]]);
    try reflexivity; (split; [simpl; lia|discriminate]).
Defined.

(** ** Ordering *)

(** X15. On base vectors the ordering operators are dual: [a < b] returns
    what [b > a] returns, and [a <= b] what [b >= a] returns. *)
Theorem ordering_duality `{Numpy} (a b : instance) (h : heap) :
  __class__ a = ClsVector ->
  __class__ b = ClsVector ->
  wf h a ->
  wf h b ->
  fst (__lt__ a (VInstance b) h) = fst (__gt__ b (VInstance a) h) /\
  fst (__le__ a (VInstance b) h) = fst (__ge__ b (VInstance a) h).
Proof.
  intros Ha Hb Hwa Hwb.
  assert (Hca : operand_cells h (__class__ b) (VInstance a)
                = Some (Cells (buffer h a))).
  { rewrite Hb. apply operand_cells_vector, Hwa. }
  assert (Hcb : operand_cells h (__class__ a) (VInstance b)
                = Some (Cells (buffer h b))).
  { rewrite Ha. apply operand_cells_vector, Hwb. }
  unfold __lt__, __gt__, __le__, __ge__.
  rewrite !(ordering_by_magnitude _ a _ h _ Hwa Hcb).
  rewrite !(ordering_by_magnitude _ b _ h _ Hwb Hca).
  destruct (magnitude (buffer h a)) as [x|e] eqn:Hx,
           (magnitude (buffer h b)) as [y|e'] eqn:Hy;
    try (split; reflexivity).
  apply math_sqrt_error in Hx, Hy. subst. split; reflexivity.
Qed.

Lemma ordering_duality_witness :
  fst (@__lt__ example_kernels (Instance ClsVector 0 None)
         (VInstance (Instance ClsVector 1 None))
         [[1%float; 0%float]; [0%float; 2%float]])
  = fst (@__gt__ example_kernels (Instance ClsVector 1 None)
           (VInstance (Instance ClsVector 0 None))
           [[1%float; 0%float]; [0%float; 2%float]]).
Proof.
  apply (@ordering_duality example_kernels (Instance ClsVector 0 None)
           (Instance ClsVector 1 None)
           [[1%float; 0%float]; [0%float; 2%float]]);
    try reflexivity; (split; [simpl; lia|discriminate]).
Defined.

(** ** Magnitude under sign changes *)

Lemma squares_map `{Numpy} (f : float -> float) (xs : list float) :
  (forall x, float64_square (f x) = float64_square x) ->
  map float64_square (map f xs) = map float64_square xs.
Proof. intros Hf. rewrite map_map. apply map_ext. intros x. apply Hf. Qed.

(** X16. Given a C library whose [pow] keeps the laws of squaring, the
    magnitude does not see signs: [(-v).distance()] and [abs(v).distance()]
    return exactly the float64 that [v.distance()] returns. *)
Theorem distance_ignores_signs `{Numpy} `{!LibmLaws} (self : instance)
    (h : heap) :
  wf h self ->
  fst ((r ← __neg__ self; call (fun o => m ← distance o VNone;
                                           mret (VFloat m)) r) h)
  = fst ((m ← distance self VNone; mret (VFloat m)) h) /\
  fst ((r ← __abs__ self; call (fun o => m ← distance o VNone;
                                           mret (VFloat m)) r) h)
  = fst ((m ← distance self VNone; mret (VFloat m)) h).
Proof.
  intros Hwf. unfold __neg__, __abs__.
  rewrite !(bind_ok _ _ _ _ _ (unary_spec _ self h Hwf)). unfold call.
  rewrite !(bind_ok _ _ _ _ _
              (distance_origin_none_ok _ _ (unary_wf _ _ _ Hwf))).
  rewrite (bind_ok _ _ _ _ _ (distance_origin_none_ok _ _ Hwf)).
  rewrite !buffer_alloc_new. cbn [fst].
  rewrite (squares_map _ _ float64_square_opp),
    (squares_map _ _ float64_square_abs).
  split; reflexivity.
Qed.

Lemma distance_ignores_signs_witness :
  fst ((r ← __neg__ (Instance ClsPoint 0 None);
        call (fun o => m ← @distance example_kernels o VNone;
                       mret (VFloat m)) r)
         [[3%float; (-4)%float]])
  = fst ((m ← @distance example_kernels (Instance ClsPoint 0 None) VNone;
          mret (VFloat m))
           [[3%float; (-4)%float]]).
Proof.
  apply (@distance_ignores_signs example_kernels example_kernels_laws
           (Instance ClsPoint 0 None) [[3%float; (-4)%float]]).
  split; [simpl; lia|intros _; reflexivity].
Defined.

(** ** What the methods return *)

Lemma bind_inv {A B} (m : M A) (k : A -> M B) (h h' : heap) (b : B) :
  (m ≫= k) h = (Ok b, h') ->
  exists a h1, m h = (Ok a, h1) /\ k a h1 = (Ok b, h').
Proof.
  unfold mbind, M_bind. destruct (m h) as [[a|e] h1]; [eauto|discriminate].
Qed.

Ltac inv_binds H :=
  repeat (apply bind_inv in H as (? & ? & ? & H); cbv beta in H).

Ltac finish_new :=
  match goal with
  | Hn : new _ _ None _ = (Ok ?o, ?h2),
    Hr : mret (VInstance ?o) ?h2 = (Ok _, _) |- _ =>
      let Hwf := fresh "Hwf" in
      destruct (new_wf _ _ _ _ _ _ Hn) as (? & _ & _ & Ho & Hwf);
      unfold mret, M_ret in Hr; injection Hr as <- <-;
      unfold fresh_instance; eexists; split; [reflexivity|];
      rewrite Ho in Hwf |- *; repeat split; solve [reflexivity | apply Hwf]
  end.

Lemma arithmetic_returns (f : float -> float -> float) (self : instance)
    (other : value) (h h' : heap) (v : value) :
  arithmetic f self other h = (Ok v, h') ->
  fresh_instance (__class__ self) h' v.
Proof. intros Hr. unfold arithmetic in Hr. inv_binds Hr. finish_new. Qed.

Lemma unary_returns (f : float -> float) (self : instance)
    (h h' : heap) (v : value) :
  unary f self h = (Ok v, h') -> fresh_instance (__class__ self) h' v.
Proof. intros Hr. unfold unary in Hr. inv_binds Hr. finish_new. Qed.

(** X17. Whatever the operand, when an elementwise operator, a unary
    operator, [copy], coercion of a raw sequence, [vector], [from_vector],
    [flip_x] or [flip_y] returns, it returns an unnamed instance that is
    well formed in the final store, of the receiver's class (of the
    calling class for coercion, [Vector] for [vector], [Point] for the
    other three). In particular every [Point] these produce has exactly two
    cells. *)
Theorem returned_instances_well_formed `{Numpy} :
  (forall op f self other h v h',
      kernel op = Some f ->
      binary op self other h = (Ok v, h') ->
      fresh_instance (__class__ self) h' v) /\
  (forall self h v h',
      __pos__ self h = (Ok v, h') \/ __neg__ self h = (Ok v, h') \/
      __abs__ self h = (Ok v, h') ->
      fresh_instance (__class__ self) h' v) /\
  (forall self ord h v h',
      copy self ord h = (Ok v, h') ->
      fresh_instance (__class__ self) h' v) /\
  (forall cls r ns h v h',
      to_class cls (VRaw r) ns h = (Ok v, h') ->
      fresh_instance cls h' v) /\
  (forall self h v h',
      vector self h = (Ok v, h') -> fresh_instance ClsVector h' v) /\
  (forall x h v h',
      from_vector x h = (Ok v, h') -> fresh_instance ClsPoint h' v) /\
  (forall self h v h',
      flip_x self h = (Ok v, h') \/ flip_y self h = (Ok v, h') ->
      fresh_instance ClsPoint h' v) /\
  (forall h v, fresh_instance ClsPoint h v ->
               exists o, v = VInstance o /\ length (buffer h o) = 2%nat).
Proof.
  repeat match goal with
         | |- _ /\ _ => split
         | |- forall _, _ => intro
         end.
  - rewrite (binary_arithmetic _ _ _ _ H0) in H1.
    eapply arithmetic_returns; eauto.
  - destruct H0 as [Hr|[Hr|Hr]]; eapply unary_returns; eauto.
  - unfold copy in H0. inv_binds H0. finish_new.
  - unfold to_class in H0. inv_binds H0. finish_new.
  - unfold vector in H0. inv_binds H0. finish_new.
  - unfold from_vector in H0. inv_binds H0. finish_new.
  - destruct H0 as [Hr|Hr]; [unfold flip_x in Hr|unfold flip_y in Hr];
      inv_binds Hr; finish_new.
  - destruct H0 as (o & -> & Hc & _ & _ & Hp). eauto.
Qed.

Lemma returned_instances_well_formed_witness :
  fresh_instance ClsPoint
    (snd (__truediv__ (Instance ClsPoint 0 None) (VInt 0)
            [[1%float; 2%float]]))
    (VInstance (Instance ClsPoint 1 None)).
Proof.
  destruct (@returned_instances_well_formed example_kernels) as (Hbin & _).
  apply (Hbin OpTrueDiv PrimFloat.div (Instance ClsPoint 0 None) (VInt 0)
           [[1%float; 2%float]] (VInstance (Instance ClsPoint 1 None))
           (snd (__truediv__ (Instance ClsPoint 0 None) (VInt 0)
                   [[1%float; 2%float]]))); reflexivity.
Defined.

(** ** Converting between point and vector *)

Lemma from_vector_ok (v : instance) (h : heap) :
  length (buffer h v) = 2%nat ->
  from_vector (VInstance v) h
  = (Ok (VInstance (Instance ClsPoint (length h) None)), h ++ [buffer h v]).
Proof.
  intros Hl. unfold from_vector.
  rewrite (bind_ok _ _ h h (buffer h v)) by reflexivity.
  now rewrite (bind_ok _ _ _ _ _
                 (new_ok ClsPoint (NdArray (Float64 (buffer h v))) None h
                    (buffer h v) eq_refl (fun _ => Hl))).
Qed.

(** X18. [Point.from_vector] builds a point over a copy of a vector's
    cells when there are exactly two and raises [ValueError] otherwise, and
    raises [AttributeError] on an argument without [coordinates];
    [p.vector()] followed by [from_vector] gives back a point with [p]'s
    cells in a buffer of its own. *)
Theorem from_vector_round_trip :
  (forall v h,
      length (buffer h v) = 2%nat ->
      from_vector (VInstance v) h
      = (Ok (VInstance (Instance ClsPoint (length h) None)),
         h ++ [buffer h v])) /\
  (forall v h,
      length (buffer h v) <> 2%nat ->
      from_vector (VInstance v) h = (Raise ValueError, h)) /\
  (forall item h,
      is_plain item = true ->
      from_vector item h = (Raise AttributeError, h)) /\
  (forall p h,
      wf h p ->
      __class__ p = ClsPoint ->
      exists q h',
        (v ← vector p; from_vector v) h = (Ok (VInstance q), h') /\
        __class__ q = ClsPoint /\
        buffer h' q = buffer h p /\
        buffer h' p = buffer h p /\
        coordinates q <> coordinates p).
Proof.
  split; [|split; [|split]].
  - apply from_vector_ok.
  - intros v h Hl. unfold from_vector.
    rewrite (bind_ok _ _ h h (buffer h v)) by reflexivity.
    now rewrite (bind_raise _ _ _ _ _
                   (new_point_wrong_length
                      (NdArray (Float64 (buffer h v))) None h Hl)).
  - intros item h Hp. destruct item; try discriminate Hp; reflexivity.
  - intros p h [Hl Hp] Hc. specialize (Hp Hc).
    rewrite (bind_ok _ _ _ _ _ (vector_ok h p)).
    set (v := Instance ClsVector (length h) None).
    set (h1 := h ++ [buffer h p]).
    assert (Hbv : buffer h1 v = buffer h p) by apply buffer_alloc_new.
    rewrite (from_vector_ok v h1) by now rewrite Hbv.
    eexists _, _. split; [reflexivity|]. rewrite Hbv.
    repeat split.
    + apply buffer_alloc_new.
    + subst h1. rewrite <- app_assoc. now apply buffer_alloc_old.
    + subst h1. simpl. rewrite length_app. lia.
Qed.

Lemma from_vector_round_trip_witness :
  from_vector (VInstance (Instance ClsVector 0 None)) [[3%float; 4%float]]
  = (Ok (VInstance (Instance ClsPoint 1 None)),
     [[3%float; 4%float]; [3%float; 4%float]]) /\
  from_vector (VInstance (Instance ClsVector 0 None)) [[3%float]]
  = (Raise ValueError, [[3%float]]) /\
  from_vector (VInt 3) [] = (Raise AttributeError, []) /\
  (exists q h',
      (v ← vector (Instance ClsPoint 0 None); from_vector v)
        [[3%float; 4%float]]
      = (Ok (VInstance q), h') /\
      buffer h' q = [3%float; 4%float]).
Proof.
  destruct from_vector_round_trip as (Hok & Hlen & Hattr & Hrt).
  split; [|split; [|split]].
  - apply (Hok (Instance ClsVector 0 None) [[3%float; 4%float]]). reflexivity.
  - apply (Hlen (Instance ClsVector 0 None) [[3%float]]). simpl. lia.
  - apply (Hattr (VInt 3) []). reflexivity.
  - destruct (Hrt (Instance ClsPoint 0 None) [[3%float; 4%float]])
      as (q & h' & Hq & _ & Hb & _).
    + split; [simpl; lia|intros _; reflexivity].
    + reflexivity.
    + exists q, h'. split; [exact Hq|exact Hb].
Defined.

(** ** Flipping a point *)

Lemma flip_x_ok (self : instance) (h : heap) (a b : float) :
  buffer h self = [a; b] ->
  flip_x self h
  = (Ok (VInstance (Instance ClsPoint (length h) None)),
     h ++ [[a; PrimFloat.opp b]]).
Proof.
  intros Hb. unfold flip_x. run. fold (buffer h self). rewrite Hb.
  reflexivity.
Qed.

Lemma flip_y_ok (self : instance) (h : heap) (a b : float) :
  buffer h self = [a; b] ->
  flip_y self h
  = (Ok (VInstance (Instance ClsPoint (length h) None)),
     h ++ [[PrimFloat.opp a; b]]).
Proof.
  intros Hb. unfold flip_y. run. fold (buffer h self). rewrite Hb.
  reflexivity.
Qed.

(** X19. On a point with cells [(a, b)], [flip_x] returns a new unnamed
    [Point] with cells [(a, -b)] and [flip_y] one with [(-a, b)]; flipping
    twice over the same axis gives back [(a, b)] exactly, and flipping over
    both axes, in either order, gives the cells [(-a, -b)] of [-p]. *)
Theorem flips (self : instance) (h : heap) (a b : float) :
  buffer h self = [a; b] ->
  __class__ self = ClsPoint ->
  (coordinates self < length h)%nat ->
  flip_x self h
  = (Ok (VInstance (Instance ClsPoint (length h) None)),
     h ++ [[a; PrimFloat.opp b]]) /\
  flip_y self h
  = (Ok (VInstance (Instance ClsPoint (length h) None)),
     h ++ [[PrimFloat.opp a; b]]) /\
  fst ((r ← flip_x self; r' ← call flip_x r; observe r') h)
  = Ok (IsInstance ClsPoint [a; b]) /\
  fst ((r ← flip_y self; r' ← call flip_y r; observe r') h)
  = Ok (IsInstance ClsPoint [a; b]) /\
  fst ((r ← flip_x self; r' ← call flip_y r; observe r') h)
  = fst ((r ← __neg__ self; observe r) h) /\
  fst ((r ← flip_y self; r' ← call flip_x r; observe r') h)
  = fst ((r ← __neg__ self; observe r) h).
Proof.
  intros Hb Hc Hl.
  assert (Hwf : wf h self).
  { split; [exact Hl|]. intros _. now rewrite Hb. }
  split; [now apply flip_x_ok|]. split; [now apply flip_y_ok|].
  unfold __neg__. rewrite (unary_observed _ _ _ Hwf), Hb, Hc.
  rewrite !(bind_ok _ _ _ _ _ (flip_x_ok self h a b Hb)).
  rewrite !(bind_ok _ _ _ _ _ (flip_y_ok self h a b Hb)).
  unfold call.
  rewrite (bind_ok _ _ _ _ _
             (flip_x_ok _ _ a (PrimFloat.opp b) (buffer_alloc_new _ _ _ _))).
  rewrite (bind_ok _ _ _ _ _
             (flip_y_ok _ _ a (PrimFloat.opp b) (buffer_alloc_new _ _ _ _))).
  rewrite (bind_ok _ _ _ _ _
             (flip_y_ok _ _ (PrimFloat.opp a) b (buffer_alloc_new _ _ _ _))).
  rewrite (bind_ok _ _ _ _ _
             (flip_x_ok _ _ (PrimFloat.opp a) b (buffer_alloc_new _ _ _ _))).
  rewrite !observe_instance. cbn [fst __class__].
  rewrite !buffer_alloc_new, !opp_involutive.
  repeat split.
Qed.

Lemma flips_witness :
  flip_x (Instance ClsPoint 0 None) [[2%float; 3%float]]
  = (Ok (VInstance (Instance ClsPoint 1 None)),
     [[2%float; 3%float]; [2%float; (-3)%float]]) /\
  flip_y (Instance ClsPoint 0 None) [[2%float; 3%float]]
  = (Ok (VInstance (Instance ClsPoint 1 None)),
     [[2%float; 3%float]; [(-2)%float; 3%float]]).
Proof.
  destruct (flips (Instance ClsPoint 0 None) [[2%float; 3%float]]
              2%float 3%float) as (Hx & Hy & _).
  - reflexivity.
  - reflexivity.
  - simpl. lia.
  - split; [exact Hx|exact Hy].
Defined.

(** ** Power with a modulus, and the dot product's operands *)

Lemma coordinates_if_instance_ok cls (other : value) (h : heap) :
  exists c, coordinates_if_instance cls other h = (Ok c, h).
Proof.
  unfold coordinates_if_instance.
  destruct other as [| | | | | | |o|]; simpl; eauto.
  destruct (issubclass (__class__ o) cls); eauto.
Qed.

(** X20. The three-argument power never succeeds: with any modulus other
    than [None], [v.__pow__(p, m)] raises, and it raises [TypeError]
    whenever [p] is an operand coercion accepts. *)
Theorem pow_with_modulus `{Numpy} (self : instance) (p m : value)
    (h : heap) :
  m <> VNone ->
  (forall v h', __pow__ self p m h <> (Ok v, h')) /\
  (forall o h1,
      to_class (__class__ self) p false h = (Ok o, h1) ->
      __pow__ self p m h = (Raise TypeError, h1)).
Proof.
  intros Hm.
  assert (Hpow : __pow__ self p m
                 = (other ← to_class (__class__ self) p false;
                    _ ← coordinates_if_instance (__class__ self) other;
                    raise TypeError)).
  { destruct m; [congruence|..]; reflexivity. }
  rewrite Hpow. split.
  - intros v h' Hr. inv_binds Hr. discriminate Hr.
  - intros o h1 Hto. rewrite (bind_ok _ _ _ _ _ Hto).
    destruct (coordinates_if_instance_ok (__class__ self) o h1) as [c Hc].
    now rewrite (bind_ok _ _ _ _ _ Hc).
Qed.

Lemma pow_with_modulus_witness :
  fst (@__pow__ example_kernels (Instance ClsVector 0 None) (VInt 2) (VInt 5)
         [[3%float]])
  = Raise TypeError.
Proof.
  destruct (@pow_with_modulus example_kernels (Instance ClsVector 0 None)
              (VInt 2) (VInt 5) [[3%float]]) as [_ Hty]; [discriminate|].
  exact (f_equal fst (Hty (VInt 2) [[3%float]] eq_refl)).
Defined.

(** X21. [@] takes no scalar and does not stretch: with a Python number
    as operand it raises [ValueError], or [OverflowError] when the number is
    an [int] too large for a float; with a sequence-like operand of another
    length (one cell included) it raises [ValueError]; and when it returns,
    it returns a bare float, never an instance. *)
Theorem matmul_operands `{Numpy} (self : instance) (other : value)
    (h : heap) :
  wf h self ->
  (forall y, operand_cells h (__class__ self) other = Some (Stretch y) ->
             __matmul__ self other h = (Raise ValueError, h)) /\
  (forall z, other = VInt z -> float_of_int z = Raise OverflowError ->
             __matmul__ self other h = (Raise OverflowError, h)) /\
  (forall ys, operand_cells h (__class__ self) other = Some (Cells ys) ->
              length ys <> length (buffer h self) ->
              fst (__matmul__ self other h) = Raise ValueError) /\
  (forall v h', __matmul__ self other h = (Ok v, h') ->
                exists z, v = VFloat z).
Proof.
  intros [Hl Hp]. split; [|split; [|split]].
  - intros y Hc. destruct (to_class_stretch _ _ _ _ Hc) as (Hto & Hi & Hu).
    unfold __matmul__. rewrite (bind_ok _ _ _ _ _ Hto).
    unfold coordinates_if_instance. rewrite Hi.
    destruct other as [| |z| | | |r|o|]; try discriminate Hc;
      try reflexivity; simpl in Hc.
    + run. destruct (float_of_int z); [reflexivity|discriminate].
    + destruct (np_array r); [|discriminate].
      destruct (__class__ self); [|destruct (decide _)]; discriminate.
  - intros z -> Hz. unfold __matmul__. run. now rewrite Hz.
  - intros ys Hc Hlen.
    destruct (to_class_cells _ _ _ _ Hc) as (o & t & Hto & Hi & Hwo & Hb).
    unfold __matmul__. rewrite (bind_ok _ _ _ _ _ Hto).
    unfold coordinates_if_instance. rewrite Hi.
    unfold get_coordinates. run. fold (buffer (h ++ t) o). rewrite Hb.
    rewrite (lookup_app_l h _ (coordinates self)) by exact Hl.
    fold (buffer h self). unfold dot_product.
    now rewrite decide_False by auto.
  - intros v h' Hr. unfold __matmul__ in Hr. inv_binds Hr.
    injection Hr as <- _. eauto.
Qed.

Lemma matmul_operands_witness :
  @__matmul__ example_kernels (Instance ClsVector 0 None) (VFloat 2)
    [[1%float; 2%float]]
  = (Raise ValueError, [[1%float; 2%float]]) /\
  @__matmul__ example_kernels (Instance ClsVector 0 None)
    (VInt (10 ^ 400)) [[1%float; 2%float]]
  = (Raise OverflowError, [[1%float; 2%float]]) /\
  fst (@__matmul__ example_kernels (Instance ClsVector 0 None)
         (VRaw (PyTuple [PyInt 5])) [[1%float; 2%float]])
  = Raise ValueError.
Proof.
  split; [|split].
  - destruct (@matmul_operands example_kernels (Instance ClsVector 0 None)
                (VFloat 2) [[1%float; 2%float]]) as (Hs & _).
    + split; [simpl; lia|discriminate].
    + apply (Hs 2%float). reflexivity.
  - destruct (@matmul_operands example_kernels (Instance ClsVector 0 None)
                (VInt (10 ^ 400)) [[1%float; 2%float]]) as (_ & Ho & _).
    + split; [simpl; lia|discriminate].
    + apply (Ho (10 ^ 400)%Z); reflexivity.
  - destruct (@matmul_operands example_kernels (Instance ClsVector 0 None)
                (VRaw (PyTuple [PyInt 5])) [[1%float; 2%float]])
      as (_ & _ & Hc & _).
    + split; [simpl; lia|discriminate].
    + apply (Hc [5%float]); [reflexivity|simpl; lia].
Defined.

(** ** Construction *)

Lemma mapM_float_error (xs : list Scalar) e :
  mapM float_of_Scalar xs = Raise e -> e = OverflowError.
Proof.
  induction xs as [|[z|f] xs IH]; simpl; try discriminate.
  - unfold float_of_int. destruct (is_infinity (float_of_Z z)).
    + now intros [= <-].
    + destruct (mapM float_of_Scalar xs); [discriminate|].
      intros [= <-]. now apply IH.
  - destruct (mapM float_of_Scalar xs); [discriminate|].
    intros [= <-]. now apply IH.
Qed.

Lemma np_array_error (r : Vector_raw) e :
  np_array r = Raise e -> e = OverflowError.
Proof.
  destruct r as [xs|xs|[xs|xs]]; simpl; try discriminate;
    apply mapM_float_error.
Qed.

Lemma mapM_floats (xs : list float) :
  mapM float_of_Scalar (map PyFloat xs) = Ok xs.
Proof.
  induction xs as [|x xs IH]; simpl; [reflexivity|].
  simpl in IH. now rewrite IH.
Qed.

(** X22. Construction: an instance that [cls(c, name)] returns has
    [d = len(c)] (zero for an empty sequence), the given name and class;
    float elements are stored unchanged, NaN and infinities included; and
    the constructor raises only [OverflowError] (an [int] too large for a
    float) or, for [Point] and checked first, [ValueError] when [len(c)] is
    not two - in both cases without allocating. *)
Theorem construction :
  (forall cls r nm h o h',
      new cls r nm h = (Ok o, h') ->
      d o h' = (Ok (len r), h') /\
      name o = nm /\
      __class__ o = cls /\
      np_array r = Ok (buffer h' o)) /\
  (forall xs nm h,
      new ClsVector (PyTuple (map PyFloat xs)) nm h
      = (Ok (Instance ClsVector (length h) nm), h ++ [xs])) /\
  (forall cls r nm h e h',
      new cls r nm h = (Raise e, h') ->
      h' = h /\
      (e = OverflowError \/
       (e = ValueError /\ cls = ClsPoint /\ len r <> 2%nat))) /\
  (forall r nm h,
      len r <> 2%nat -> new ClsPoint r nm h = (Raise ValueError, h)).
Proof.
  split; [|split; [|split]].
  - intros cls r nm h o h' Hn.
    destruct (new_wf _ _ _ _ _ _ Hn) as (xs & Hr & -> & -> & Hwf).
    rewrite buffer_alloc_new. repeat split; auto.
    unfold d. run. rewrite lookup_app_r by lia. rewrite Nat.sub_diag. simpl.
    now rewrite (np_array_len _ _ Hr).
  - intros xs nm h. apply new_ok; [apply mapM_floats|discriminate].
  - intros cls r nm h e h' Hn.
    destruct (decide (cls = ClsPoint -> len r = 2%nat)) as [Hp|Hp].
    + destruct (np_array r) as [xs|e'] eqn:Hr.
      * rewrite (new_ok _ _ _ _ _ Hr Hp) in Hn. discriminate.
      * rewrite (new_unconvertible _ _ _ _ _ Hr Hp) in Hn.
        injection Hn as <- <-. split; [reflexivity|left].
        now apply (np_array_error r).
    + destruct cls; [exfalso; apply Hp; discriminate|].
      assert (Hl : len r <> 2%nat) by (intros Hl; apply Hp; auto).
      rewrite (new_point_wrong_length _ _ _ Hl) in Hn.
      injection Hn as <- <-. auto.
  - intros r nm h Hl. now apply new_point_wrong_length.
Qed.

Lemma construction_witness :
  d (Instance ClsVector 0 (Some "e"%string)) [[]] = (Ok 0%nat, [[]]) /\
  new ClsVector (PyTuple (map PyFloat [nan; infinity])) None []
  = (Ok (Instance ClsVector 0 None), [[nan; infinity]]) /\
  new ClsPoint (PyTuple [PyInt 1; PyInt 2; PyInt (2 ^ 2000)]) None []
  = (Raise ValueError, []).
Proof.
  destruct construction as (Hd & Hfloat & _ & Hlen).
  split; [|split].
  - apply (Hd ClsVector (PyTuple []) (Some "e"%string) []
             (Instance ClsVector 0 (Some "e"%string)) [[]]). reflexivity.
  - apply (Hfloat [nan; infinity] None []).
  - apply (Hlen (PyTuple [PyInt 1; PyInt 2; PyInt (2 ^ 2000)]) None []).
    simpl. lia.
Defined.

(** ** The point's accessors *)

(** X23. [p.x] and [p.y] read cells 0 and 1 of the buffer each time they
    are used: on a point with cells [(a, b)] they return [a] and [b], and
    after [p[0] = s] succeeds, [p.x] returns the float of [s] while [p.y]
    still returns [b]. *)
Theorem accessors_are_live (self : instance) (h : heap) (a b : float) :
  buffer h self = [a; b] ->
  (coordinates self < length h)%nat ->
  x self h = (Ok (VFloat a), h) /\
  y self h = (Ok (VFloat b), h) /\
  (forall s c,
      float_of_Scalar s = Ok c ->
      fst ((_ ← __setitem__ self 0 s; x self) h) = Ok (VFloat c) /\
      fst ((_ ← __setitem__ self 0 s; y self) h) = Ok (VFloat b)).
Proof.
  intros Hb Hl. unfold x, y.
  rewrite (getitem_ok self 0 h 0) by now rewrite Hb.
  rewrite (getitem_ok self 1 h 1) by now rewrite Hb.
  rewrite Hb. split; [reflexivity|]. split; [reflexivity|].
  intros s c Hs.
  assert (Hset : __setitem__ self 0 s h
                 = (Ok tt, <[coordinates self := [c; b]]> h)).
  { rewrite (setitem_ok self 0 s h 0 c) by (rewrite ?Hb; auto).
    now rewrite Hb. }
  rewrite !(bind_ok _ _ _ _ _ Hset).
  assert (Hb' : buffer (<[coordinates self := [c; b]]> h) self = [c; b]).
  { unfold buffer. now rewrite list_lookup_insert_eq by exact Hl. }
  rewrite (getitem_ok self 0 _ 0) by now rewrite Hb'.
  rewrite (getitem_ok self 1 _ 1) by now rewrite Hb'.
  rewrite Hb'. split; reflexivity.
Qed.

Lemma accessors_are_live_witness :
  x (Instance ClsPoint 0 None) [[2%float; 3%float]]
  = (Ok (VFloat 2), [[2%float; 3%float]]) /\
  fst ((_ ← __setitem__ (Instance ClsPoint 0 None) 0 (PyInt 7);
        x (Instance ClsPoint 0 None)) [[2%float; 3%float]])
  = Ok (VFloat 7).
Proof.
  destruct (accessors_are_live (Instance ClsPoint 0 None)
              [[2%float; 3%float]] 2%float 3%float) as (Hx & _ & Hset).
  - reflexivity.
  - simpl. lia.
  - split; [exact Hx|]. apply (Hset (PyInt 7) 7%float). reflexivity.
Defined.

(** ** Comparisons in which a point takes part *)

Lemma eq_point_instance (self o : instance) (h : heap) :
  __class__ self = ClsPoint ->
  fst (__eq__ self (VInstance o) h) = Raise TypeError.
Proof.
  intros Hc. destruct (point_rejects_instances self o h Hc)
    as (v & h' & Hto & Hck).
  unfold __eq__. rewrite (bind_ok _ _ _ _ _ Hto).
  now rewrite (bind_raise _ _ _ _ _ Hck).
Qed.

Lemma method_point_instance `{Numpy} (op : operator) (self o : instance)
    (h : heap) :
  is_comparison op = true ->
  __class__ self = ClsPoint ->
  fst (method op self (VInstance o) h) = Raise TypeError.
Proof.
  intros Hop Hc. destruct op; try discriminate Hop; unfold method;
    first [now apply eq_point_instance | now apply ordering_point_instance].
Qed.

(** X24. No comparison answers once a point takes part with another
    instance: with a [Point] as receiver and any instance as right operand
    the receiver's method fails the class check, and with a [Point] as
    right operand of a base [Vector] the interpreter runs the point's
    reflected method first, which fails the same way. So each of
    [== < > <= >=] raises [TypeError], [Vector((1,2)) == Point((1,2))]
    included. *)
Theorem comparison_with_point_raises `{Numpy} (op : operator)
    (self o : instance) (h : heap) :
  is_comparison op = true ->
  __class__ self = ClsPoint \/ __class__ o = ClsPoint ->
  fst (binary op self (VInstance o) h) = Raise TypeError.
Proof.
  intros Hop Hpoint. unfold binary, proper_subclass. rewrite Hop.
  destruct (__class__ self) eqn:Hs, (__class__ o) eqn:Ho; cbn.
  - destruct Hpoint; discriminate.
  - apply method_point_instance; [now destruct op|exact Ho].
  - now apply method_point_instance.
  - now apply method_point_instance.
Qed.

Lemma comparison_with_point_raises_witness :
  fst (@binary example_kernels OpEq (Instance ClsVector 0 None)
         (VInstance (Instance ClsPoint 1 None))
         [[1%float; 2%float]; [1%float; 2%float]])
  = Raise TypeError /\
  fst (@binary example_kernels OpLe (Instance ClsPoint 1 None)
         (VInstance (Instance ClsVector 0 None))
         [[1%float; 2%float]; [1%float; 2%float]])
  = Raise TypeError.
Proof.
  split.
  - apply (@comparison_with_point_raises example_kernels OpEq
             (Instance ClsVector 0 None) (Instance ClsPoint 1 None)
             [[1%float; 2%float]; [1%float; 2%float]]);
      [reflexivity|now right].
  - apply (@comparison_with_point_raises example_kernels OpLe
             (Instance ClsPoint 1 None) (Instance ClsVector 0 None)
             [[1%float; 2%float]; [1%float; 2%float]]);
      [reflexivity|now left].
Defined.
